(** * server.py: a static file server with CORS headers

  A shallow embedding of [server.py] and of the parts of the CPython 3.11
  standard library that it subclasses and calls ([http.server],
  [mimetypes], [posixpath], [socketserver]).

  - Strings are sequences of 8-bit characters: the request line is decoded
    as iso-8859-1 by [parse_request], so every character of a request
    target is one byte.
  - The handler class is embedded twice.  Over a parsed request
    ([respond], [main]) the request is taken as [parse_request] leaves it
    in the handler object (command, path, version, headers) and the
    methods return.  Over a connection ([Conn.handle_one_request],
    [Conn.main]) the request line and the header lines are read and may be
    refused, [open] may raise ValueError, and the serve loop catches the
    exception of a handler.  [Conn_handle] and [main_agrees] relate the
    two.
  - The operating system, the clock and the library functions that are not
    embedded (percent-decoding, [repr], date formatting and parsing, the
    directory listing page) are fields of the record [Env].
  - Logging ([log_request], [log_error]) writes to stderr only and is left
    out; so are errors of the socket while a response is written. *)

From Stdlib Require Import String Ascii List ZArith Bool Lia DecimalString.
From stdpp Require Import base option strings gmap.

Import ListNotations.
Local Open Scope string_scope.
Local Open Scope Z_scope.

(** ** Python [str] methods used by the code *)

Module PyStr.

(** [str(n)] for a non-negative integer. *)
Definition str (n : Z) : string :=
  NilZero.string_of_uint (N.to_uint (Z.to_N n)).

Definition len (s : string) : Z := Z.of_nat (String.length s).

(** [s[i:]] and [s[:i]] for [0 <= i]. *)
Definition slice_from (s : string) (i : Z) : string :=
  substring (Z.to_nat i) (String.length s - Z.to_nat i) s.
Definition slice_to (s : string) (i : Z) : string :=
  substring 0 (Z.to_nat i) s.

Fixpoint startswith (s p : string) : bool :=
  match p, s with
  | EmptyString, _ => true
  | String c p', String d s' => Ascii.eqb c d && startswith s' p'
  | String _ _, EmptyString => false
  end.

Definition endswith (s suffix : string) : bool :=
  (String.length suffix <=? String.length s)%nat &&
  String.eqb (substring (String.length s - String.length suffix)
                        (String.length suffix) s) suffix.

(** [c in s] *)
Fixpoint contains (c : ascii) (s : string) : bool :=
  match s with
  | EmptyString => false
  | String d s' => Ascii.eqb c d || contains c s'
  end.

(** [s.rfind(c)], [-1] when absent. *)
Fixpoint rfind (c : ascii) (s : string) : Z :=
  match s with
  | EmptyString => -1
  | String d s' =>
      let i := rfind c s' in
      if 0 <=? i then i + 1 else if Ascii.eqb c d then 0 else -1
  end.

(** [s.split(c, 1)[0]]: the part before the first [c]. *)
Fixpoint split1_head (c : ascii) (s : string) : string :=
  match s with
  | EmptyString => EmptyString
  | String d s' => if Ascii.eqb c d then EmptyString
                   else String d (split1_head c s')
  end.

(** [s.split(c)] *)
Fixpoint split (c : ascii) (s : string) : list string :=
  match s with
  | EmptyString => [EmptyString]
  | String d s' =>
      if Ascii.eqb c d then EmptyString :: split c s'
      else match split c s' with
           | w :: ws => String d w :: ws
           | [] => [String d EmptyString]
           end
  end.

(** [sep.join(words)] *)
Fixpoint join (sep : string) (words : list string) : string :=
  match words with
  | [] => EmptyString
  | [w] => w
  | w :: ws => w ++ sep ++ join sep ws
  end.

(** [c.lower()] on the Latin-1 range. *)
Definition lower_char (c : ascii) : ascii :=
  let n := nat_of_ascii c in
  if ((65 <=? n) && (n <=? 90))%nat then ascii_of_nat (n + 32)
  else if ((192 <=? n) && (n <=? 222) && negb (n =? 215))%nat
       then ascii_of_nat (n + 32)
  else c.

Fixpoint lower (s : string) : string :=
  match s with
  | EmptyString => EmptyString
  | String c s' => String (lower_char c) (lower s')
  end.

(** [c.isspace()] on the Latin-1 range. *)
Definition isspace (c : ascii) : bool :=
  let n := nat_of_ascii c in
  (((9 <=? n) && (n <=? 13)) || ((28 <=? n) && (n <=? 32))
   || (n =? 133) || (n =? 160))%nat.

(** [s.rstrip()] *)
Fixpoint rstrip (s : string) : string :=
  match s with
  | EmptyString => EmptyString
  | String c s' =>
      match rstrip s' with
      | EmptyString => if isspace c then EmptyString
                       else String c EmptyString
      | r => String c r
      end
  end.

(** [s.replace(c, r)] for a one-character pattern. *)
Fixpoint replace (c : ascii) (r : string) (s : string) : string :=
  match s with
  | EmptyString => EmptyString
  | String d s' => if Ascii.eqb c d then r ++ replace c r s'
                   else String d (replace c r s')
  end.

(** [key in d] and [d[key]] for a dict written as a literal. *)
Fixpoint dict_get (d : list (string * string)) (key : string)
  : option string :=
  match d with
  | [] => None
  | (k, v) :: d' => if String.eqb k key then Some v else dict_get d' key
  end.

End PyStr.

(** ** posixpath *)

Module posixpath.
Import PyStr.

(** The loop of [genericpath._splitext] that skips leading dots:
    [filenameIndex] runs up to [dotIndex]; [true] when a character other
    than the dot is met on the way. *)
Fixpoint splitext_scan (p : string) (fuel : nat) (filenameIndex : Z)
  : bool :=
  match fuel with
  | O => false
  | S fuel' =>
      if negb (String.eqb (substring (Z.to_nat filenameIndex) 1 p) ".")
      then true
      else splitext_scan p fuel' (filenameIndex + 1)
  end.

Definition splitext (p : string) : string * string :=
  let sepIndex := rfind "/" p in
  let dotIndex := rfind "." p in
  if (sepIndex <? dotIndex)
     && splitext_scan p (Z.to_nat (dotIndex - (sepIndex + 1))) (sepIndex + 1)
  then (slice_to p dotIndex, slice_from p dotIndex)
  else (p, EmptyString).

(** The component loop of [normpath]; [new_comps] is kept reversed. *)
Fixpoint normpath_comps (initial_slashes : Z) (comps : list string)
    (new_comps : list string) : list string :=
  match comps with
  | [] => rev new_comps
  | comp :: rest =>
      if String.eqb comp "" || String.eqb comp "."
      then normpath_comps initial_slashes rest new_comps
      else if negb (String.eqb comp "..")
              || ((initial_slashes =? 0)
                  && match new_comps with [] => true | _ => false end)
              || match new_comps with
                 | last :: _ => String.eqb last ".."
                 | [] => false
                 end
      then normpath_comps initial_slashes rest (comp :: new_comps)
      else match new_comps with
           | _ :: popped => normpath_comps initial_slashes rest popped
           | [] => normpath_comps initial_slashes rest new_comps
           end
  end.

Definition normpath (path : string) : string :=
  if String.eqb path "" then "."
  else
    let initial_slashes :=
      if startswith path "/"
      then if startswith path "//" && negb (startswith path "///")
           then 2 else 1
      else 0 in
    let comps := normpath_comps initial_slashes (split "/" path) [] in
    let path := PyStr.join "/" comps in
    let path :=
      if initial_slashes =? 2 then "//" ++ path
      else if initial_slashes =? 1 then "/" ++ path
      else path in
    if String.eqb path "" then "." else path.

(** [os.path.join(a, b)] *)
Definition join (a b : string) : string :=
  if startswith b "/" then b
  else if String.eqb a "" || endswith a "/" then a ++ b
  else a ++ "/" ++ b.

End posixpath.

(** ** mimetypes *)

Module mimetypes.
Import PyStr.

Definition suffix_map : list (string * string) :=
  [ (".svgz", ".svg.gz"); (".tgz", ".tar.gz"); (".taz", ".tar.gz");
    (".tz", ".tar.gz"); (".tbz2", ".tar.bz2"); (".txz", ".tar.xz") ].

Definition encodings_map : list (string * string) :=
  [ (".gz", "gzip"); (".Z", "compress"); (".bz2", "bzip2");
    (".xz", "xz"); (".br", "br") ].

(** The global table [_db.types_map[True]]: extension to type.  Its
    initial contents come from the module's defaults and from the host's
    mime.types files. *)
Abbreviation types_map := (gmap string string).

(** [mimetypes.add_type(type, ext)] *)
Definition add_type (type ext : string) (db : types_map) : types_map :=
  <[ext := type]> db.

(** The [while] loop over [suffix_map]; no value of [suffix_map] ends in
    one of its keys, so the loop body runs at most once and the fuel is
    never exhausted. *)
Fixpoint guess_suffix (fuel : nat) (base ext : string) : string * string :=
  match fuel with
  | O => (base, ext)
  | S fuel' =>
      match dict_get suffix_map (lower ext) with
      | Some s =>
          let '(base', ext') := posixpath.splitext (base ++ s) in
          guess_suffix fuel' base' ext'
      | None => (base, ext)
      end
  end.

(** [mimetypes.guess_type(url)] with [strict=True], for a file name
    without a URL scheme; returns [(type, encoding)]. *)
Definition guess_type (db : types_map) (url : string)
  : option string * option string :=
  let '(base, ext) := posixpath.splitext url in
  let '(base, ext) := guess_suffix 2 base ext in
  let '(encoding, ext) :=
    match dict_get encodings_map ext with
    | Some e => (Some e, snd (posixpath.splitext base))
    | None => (None, ext)
    end in
  let ext := lower ext in
  (db !! ext, encoding).

End mimetypes.

(** ** The host: operating system, clock and library functions that are
    taken as given *)

(** An open file: what reading it to the end yields, and its [os.fstat]. *)
Record file := {
  f_content : string;
  st_size : Z;
  st_mtime : Z;               (* whole seconds since the epoch *)
}.

Record Env := {
  sys_version : string;                 (* "Python/" + sys.version *)
  time_now : string;                    (* date_time_string() *)
  formatdate : Z -> string;             (* date_time_string(timestamp) *)
  getcwd : string;                      (* os.getcwd() after os.chdir *)
  getfilesystemencoding : string;
  unquote_escapes : string -> string;   (* unquote of a string with a % *)
  repr : string -> string;              (* "%r" % s *)
  encode_utf8 : string -> string;       (* s.encode('UTF-8', 'replace') *)
  urlsplit_path : string -> string;     (* urlsplit(url).path *)
  redirect_url : string -> string;      (* urlunsplit with path + "/" *)
  (** [parsedate_to_datetime(s)] as seconds since the epoch, when [s] is
      well formed and its zone is UTC or absent. *)
  parsedate_utc : string -> option Z;
  isdir : string -> bool;
  isfile : string -> bool;
  open_rb : string -> option file;      (* None: OSError *)
  (** The page [list_directory(path)] builds for [self.path];
      None: [os.listdir] raised OSError. *)
  listing : string -> string -> option string;
}.

(** ** http.server *)

Module http_server.
Import PyStr.

(** A line of the response head, and what [wfile] receives. *)
Inductive hline :=
| Status (version : string) (code : Z) (message : string)
| Header (keyword value : string)
| Blank.

Inductive chunk :=
| Head (lines : list hline)       (* b"".join(self._headers_buffer) *)
| Body (data : string).

Definition crlf : string := String "013" (String "010" "").

(** The bytes of a line, as [send_response_only], [send_header] and
    [end_headers] format it. *)
Definition hline_bytes (l : hline) : string :=
  match l with
  | Status v code m => v ++ " " ++ str code ++ " " ++ m ++ crlf
  | Header k v => k ++ ": " ++ v ++ crlf
  | Blank => crlf
  end.

Definition chunk_bytes (c : chunk) : string :=
  match c with
  | Head ls => String.concat "" (map hline_bytes ls)
  | Body d => d
  end.

(** The parsed request: what [parse_request] leaves in [self.command],
    [self.path], [self.request_version] and [self.headers]. *)
Record request := {
  req_command : string;
  req_path : string;
  req_version : string;
  req_headers : list (string * string);
}.

(** The handler object. *)
Record handler := {
  command : string;
  path : string;
  request_version : string;
  headers : list (string * string);
  _headers_buffer : list hline;
  wfile : list chunk;
  close_connection : bool;
}.

Definition buffer_append (l : hline) (self : handler) : handler :=
  {| command := command self; path := path self;
     request_version := request_version self; headers := headers self;
     _headers_buffer := _headers_buffer self ++ [l];
     wfile := wfile self; close_connection := close_connection self |}.

Definition buffer_clear (self : handler) : handler :=
  {| command := command self; path := path self;
     request_version := request_version self; headers := headers self;
     _headers_buffer := [];
     wfile := wfile self; close_connection := close_connection self |}.

Definition wfile_write (c : chunk) (self : handler) : handler :=
  {| command := command self; path := path self;
     request_version := request_version self; headers := headers self;
     _headers_buffer := _headers_buffer self;
     wfile := wfile self ++ [c]; close_connection := close_connection self |}.

Definition set_close_connection (b : bool) (self : handler) : handler :=
  {| command := command self; path := path self;
     request_version := request_version self; headers := headers self;
     _headers_buffer := _headers_buffer self;
     wfile := wfile self; close_connection := b |}.

(** Methods are state transformers over [self]. *)
Definition M (A : Type) : Type := handler -> A * handler.

#[export] Instance M_ret : MRet M := fun A x self => (x, self).
#[export] Instance M_bind : MBind M :=
  fun A B f m self => let '(x, self') := m self in f x self'.

Definition gets {A} (f : handler -> A) : M A := fun self => (f self, self).
Definition modify (f : handler -> handler) : M unit :=
  fun self => (tt, f self).
Definition pass : M unit := mret tt.
Definition when (b : bool) (m : M unit) : M unit := if b then m else pass.

(** [self.headers]: lookup is case-insensitive, first match. *)
Fixpoint headers_get (hs : list (string * string)) (name : string)
  : option string :=
  match hs with
  | [] => None
  | (k, v) :: hs' => if String.eqb (lower k) (lower name) then Some v
                     else headers_get hs' name
  end.

Definition headers_in (name : string) (hs : list (string * string)) : bool :=
  match headers_get hs name with Some _ => true | None => false end.

(** *** BaseHTTPRequestHandler *)

Definition protocol_version : string := "HTTP/1.0".
Definition server_version : string := "SimpleHTTP/0.6".
Definition error_content_type : string := "text/html;charset=utf-8".

(** [responses]: the entries of [http.HTTPStatus] for the codes that the
    handler sends. *)
Definition responses (code : Z) : option (string * string) :=
  if code =? 200 then Some ("OK", "Request fulfilled, document follows")
  else if code =? 301 then
    Some ("Moved Permanently", "Object moved permanently -- see URI list")
  else if code =? 304 then
    Some ("Not Modified", "Document has not changed since given time")
  else if code =? 404 then Some ("Not Found", "Nothing matches the given URI")
  else if code =? 501 then
    Some ("Not Implemented", "Server does not support this operation")
  else None.

Definition nl : string := String "010" "".
Definition dq : string := String "034" "".

(** [html.escape(s, quote=False)] *)
Definition html_escape (s : string) : string :=
  replace ">" "&gt;" (replace "<" "&lt;" (replace "&" "&amp;" s)).

(** [error_message_format % {code, message, explain}] *)
Definition error_message_format (code : Z) (message explain : string)
  : string :=
  "<!DOCTYPE HTML>" ++ nl ++
  "<html lang=" ++ dq ++ "en" ++ dq ++ ">" ++ nl ++
  "    <head>" ++ nl ++
  "        <meta charset=" ++ dq ++ "utf-8" ++ dq ++ ">" ++ nl ++
  "        <title>Error response</title>" ++ nl ++
  "    </head>" ++ nl ++
  "    <body>" ++ nl ++
  "        <h1>Error response</h1>" ++ nl ++
  "        <p>Error code: " ++ str code ++ "</p>" ++ nl ++
  "        <p>Message: " ++ message ++ ".</p>" ++ nl ++
  "        <p>Error code explanation: " ++ str code ++ " - " ++ explain
    ++ ".</p>" ++ nl ++
  "    </body>" ++ nl ++
  "</html>" ++ nl.

Section Handler.
Variable E : Env.
Variable db : mimetypes.types_map.

Definition version_string : string := server_version ++ " " ++ sys_version E.

Definition send_response_only (code : Z) (message : option string)
  : M unit :=
  v ← gets request_version;
  when (negb (String.eqb v "HTTP/0.9"))
    (let message :=
       match message with
       | Some m => m
       | None => match responses code with
                 | Some (phrase, _) => phrase
                 | None => ""
                 end
       end in
     modify (buffer_append (Status protocol_version code message))).

Definition send_header (keyword value : string) : M unit :=
  v ← gets request_version;
  when (negb (String.eqb v "HTTP/0.9"))
    (modify (buffer_append (Header keyword value)));;
  when (String.eqb (lower keyword) "connection")
    (if String.eqb (lower value) "close"
     then modify (set_close_connection true)
     else when (String.eqb (lower value) "keep-alive")
            (modify (set_close_connection false))).

Definition send_response (code : Z) (message : option string) : M unit :=
  send_response_only code message;;
  send_header "Server" version_string;;
  send_header "Date" (time_now E).

Definition flush_headers : M unit :=
  buf ← gets _headers_buffer;
  modify (wfile_write (Head buf));;
  modify buffer_clear.

(** [BaseHTTPRequestHandler.end_headers], reached through [super()]. *)
Definition super_end_headers : M unit :=
  v ← gets request_version;
  when (negb (String.eqb v "HTTP/0.9"))
    (modify (buffer_append Blank);; flush_headers).

(** The methods below call [self.end_headers()], which the subclass
    overrides. *)
Section Virtual.
Variable end_headers : M unit.

Definition send_error (code : Z) (message explain : option string)
  : M unit :=
  let '(shortmsg, longmsg) :=
    match responses code with
    | Some r => r
    | None => ("???", "???")
    end in
  let message := default shortmsg message in
  let explain := default longmsg explain in
  send_response code (Some message);;
  send_header "Connection" "close";;
  let body :=
    if (200 <=? code)
       && negb ((code =? 204) || (code =? 205) || (code =? 304))
    then Some (encode_utf8 E
                 (error_message_format code (html_escape message)
                                            (html_escape explain)))
    else None in
  match body with
  | Some b =>
      send_header "Content-Type" error_content_type;;
      send_header "Content-Length" (str (len b))
  | None => pass
  end;;
  end_headers;;
  cmd ← gets command;
  match body with
  | Some b =>
      when (negb (String.eqb cmd "HEAD") && negb (String.eqb b ""))
        (modify (wfile_write (Body b)))
  | None => pass
  end.

(** *** SimpleHTTPRequestHandler *)

Definition extensions_map : list (string * string) :=
  [ (".gz", "application/gzip"); (".Z", "application/octet-stream");
    (".bz2", "application/x-bzip2"); (".xz", "application/x-xz") ].

Definition unquote (s : string) : string :=
  if negb (contains "%" s) then s else unquote_escapes E s.

(** The loop of [translate_path] over the words of the path. *)
Fixpoint translate_words (path : string) (words : list string) : string :=
  match words with
  | [] => path
  | word :: rest =>
      if contains "/" word || String.eqb word "." || String.eqb word ".."
      then translate_words path rest
      else translate_words (posixpath.join path word) rest
  end.

Definition translate_path (path : string) : string :=
  let path := split1_head "?" path in
  let path := split1_head "#" path in
  let trailing_slash := endswith (rstrip path) "/" in
  let path := unquote path in
  let path := posixpath.normpath path in
  let words := split "/" path in
  let words := filter (fun w => negb (String.eqb w "")) words in
  let path := translate_words (getcwd E) words in
  if trailing_slash then path ++ "/" else path.

Definition guess_type (path : string) : string :=
  let '(base, ext) := posixpath.splitext path in
  match dict_get extensions_map ext with
  | Some t => t
  | None =>
      let ext := lower ext in
      match dict_get extensions_map ext with
      | Some t => t
      | None =>
          match fst (mimetypes.guess_type db path) with
          | Some guess => if String.eqb guess "" then "application/octet-stream"
                          else guess
          | None => "application/octet-stream"
          end
      end
  end.

(** Returns what the caller copies to [wfile]: the content of the
    in-memory page, or None after an error reply. *)
Definition list_directory (path : string) : M (option string) :=
  p ← gets http_server.path;
  match listing E path p with
  | None =>
      send_error 404 (Some "No permission to list directory") None;;
      mret None
  | Some encoded =>
      let enc := getfilesystemencoding E in
      send_response 200 None;;
      send_header "Content-type" ("text/html; charset=" ++ enc);;
      send_header "Content-Length" (str (len encoded));;
      end_headers;;
      mret (Some encoded)
  end.

(** The test of [send_head] for the browser cache: the request has
    If-Modified-Since and no If-None-Match, the date is well formed and in
    UTC, and the file is not newer. *)
Definition not_modified_since (hs : list (string * string)) (fs : file)
  : bool :=
  if headers_in "If-Modified-Since" hs && negb (headers_in "If-None-Match" hs)
  then match headers_get hs "If-Modified-Since" ≫= parsedate_utc E with
       | Some ims => st_mtime fs <=? ims
       | None => false
       end
  else false.

(** The part of [send_head] after the directory case, for a name that
    [open] takes: it returns a file or raises OSError.  The ValueError of
    a name that it does not take is in [Conn.send_head_file]. *)
Definition send_head_file (path : string) : M (option string) :=
  let ctype := guess_type path in
  if endswith path "/" then
    send_error 404 (Some "File not found") None;; mret None
  else
    match open_rb E path with
    | None => send_error 404 (Some "File not found") None;; mret None
    | Some f =>
        hs ← gets headers;
        if not_modified_since hs f then
          send_response 304 None;;
          end_headers;;
          mret None
        else
          send_response 200 None;;
          send_header "Content-type" ctype;;
          send_header "Content-Length" (str (st_size f));;
          send_header "Last-Modified" (formatdate E (st_mtime f));;
          end_headers;;
          mret (Some (f_content f))
    end.

Definition send_head : M (option string) :=
  p ← gets http_server.path;
  let path := translate_path p in
  if isdir E path then
    if negb (endswith (urlsplit_path E p) "/") then
      send_response 301 None;;
      send_header "Location" (redirect_url E p);;
      send_header "Content-Length" "0";;
      end_headers;;
      mret None
    else if isfile E (posixpath.join path "index.html")
    then send_head_file (posixpath.join path "index.html")
    else if isfile E (posixpath.join path "index.htm")
    then send_head_file (posixpath.join path "index.htm")
    else list_directory path
  else send_head_file path.

(** [shutil.copyfileobj]: blocks are read until an empty read; the blocks
    written add up to the content. *)
Definition copyfile (source : string) : M unit :=
  when (negb (String.eqb source "")) (modify (wfile_write (Body source))).

Definition do_GET : M unit :=
  f ← send_head;
  match f with
  | Some source => copyfile source
  | None => pass
  end.

Definition do_HEAD : M unit :=
  f ← send_head;
  pass.

(** [handle_one_request] once [parse_request] has succeeded: [getattr]
    looks [mname] up in the handler class. *)
Variable getattr : string -> option (M unit).

Definition handle_one_request : M unit :=
  cmd ← gets command;
  let mname := "do_" ++ cmd in
  match getattr mname with
  | None =>
      send_error 501 (Some ("Unsupported method (" ++ repr E cmd ++ ")")) None
  | Some method => method
  end.

End Virtual.
End Handler.

(** A handler object is created per connection; [parse_request] fills the
    request in.  With [protocol_version] "HTTP/1.0" the connection carries
    one request. *)
Definition new_handler (r : request) : handler :=
  {| command := req_command r; path := req_path r;
     request_version := req_version r; headers := req_headers r;
     _headers_buffer := []; wfile := []; close_connection := true |}.

End http_server.

(** ** server.py *)

Import PyStr http_server.

(** Lines 7-8: the two calls of [mimetypes.add_type] on the global table,
    whose contents before the calls are [db0]. *)
Definition register_types (db0 : mimetypes.types_map)
  : mimetypes.types_map :=
  mimetypes.add_type "text/css" ".css"
    (mimetypes.add_type "application/javascript" ".js" db0).

Definition PORT : Z := 8000.

Section CustomHTTPRequestHandler.
Variable E : Env.
Variable db : mimetypes.types_map.

Definition end_headers : M unit :=
  send_header "Access-Control-Allow-Origin" "*";;
  send_header "Access-Control-Allow-Methods" "GET, POST, OPTIONS";;
  send_header "Access-Control-Allow-Headers" "Content-Type";;
  p ← gets path;
  when (endswith p ".js")
    (send_header "Content-Type" "application/javascript");;
  super_end_headers.

Definition do_OPTIONS : M unit :=
  send_response E 200 None;;
  end_headers.

(** The [do_*] attributes of the class: [do_OPTIONS] is its own, [do_GET]
    and [do_HEAD] are inherited from SimpleHTTPRequestHandler. *)
Definition getattr (mname : string) : option (M unit) :=
  if String.eqb mname "do_OPTIONS" then Some do_OPTIONS
  else if String.eqb mname "do_GET" then Some (do_GET E db end_headers)
  else if String.eqb mname "do_HEAD" then Some (do_HEAD E db end_headers)
  else None.

(** What the client of one connection receives. *)
Definition respond (r : request) : list chunk :=
  wfile (snd (handle_one_request E end_headers getattr (new_handler r))).

End CustomHTTPRequestHandler.

(** *** The main program *)

(** What happens while the script runs: a client connects and sends [r],
    or the interrupt signal arrives.  The connections here are those whose
    request [parse_request] accepts and whose handler returns; the others
    are in [Conn.arrival]. *)
Inductive event :=
| Connection (r : request)
| SIGINT.

Inductive exn := OSError | KeyboardInterrupt.

Definition exn_eqb (a b : exn) : bool :=
  match a, b with
  | OSError, OSError | KeyboardInterrupt, KeyboardInterrupt => true
  | _, _ => false
  end.

Inductive socket_state := Listening | Closed.

(** What the process has done so far. *)
Record process := {
  stdout : list string;               (* one entry per [print] *)
  socket : option socket_state;       (* None: not created *)
  sent : list (list chunk);           (* the responses, in order *)
}.

(** How a statement ends: normally, with an exception, or not yet (the
    events have run out while [serve_forever] waits for the next one). *)
Inductive result (A : Type) :=
| Return (a : A)
| Raise (e : exn)
| Waiting.
Arguments Return {A} a.
Arguments Raise {A} e.
Arguments Waiting {A}.

Definition P (A : Type) : Type := process -> result A * process.

#[export] Instance P_ret : MRet P := fun A x st => (Return x, st).
#[export] Instance P_bind : MBind P :=
  fun A B f m st =>
    match m st with
    | (Return x, st') => f x st'
    | (Raise e, st') => (Raise e, st')
    | (Waiting, st') => (Waiting, st')
    end.

Definition print (s : string) : P unit := fun st =>
  (Return tt, {| stdout := stdout st ++ [s]; socket := socket st;
                 sent := sent st |}).

Definition server_close : P unit := fun st =>
  (Return tt, {| stdout := stdout st; socket := Some Closed;
                 sent := sent st |}).

(** [socketserver.TCPServer(("", PORT), handler)]: the socket is created,
    bound and put to listen; when that fails the constructor closes the
    socket and lets OSError through. *)
Definition TCPServer (bind_ok : bool) : P unit := fun st =>
  if bind_ok
  then (Return tt, {| stdout := stdout st; socket := Some Listening;
                      sent := sent st |})
  else (Raise OSError, {| stdout := stdout st; socket := Some Closed;
                          sent := sent st |}).

(** [try: m except e: h] *)
Definition try_except {A} (m : P A) (e : exn) (h : P A) : P A := fun st =>
  match m st with
  | (Raise e', st') => if exn_eqb e e' then h st' else (Raise e', st')
  | other => other
  end.

(** [with httpd: m]: [__exit__] calls [server_close] however [m] ends. *)
Definition with_server (m : P unit) : P unit := fun st =>
  match m st with
  | (Waiting, st') => (Waiting, st')
  | (res, st') => (res, snd (server_close st'))
  end.

Section Main.
Variable E : Env.
Variable db0 : mimetypes.types_map.   (* the MIME table of the host *)
Variable bind_ok : bool.              (* port 8000 can be bound *)

(** [httpd.serve_forever()] over the events that occur: a connection is
    handled by a new handler object, the signal raises KeyboardInterrupt in
    the loop.  [Conn.serve_forever] is the loop with the handlers that
    raise. *)
Fixpoint serve_forever (db : mimetypes.types_map) (events : list event)
  : P unit :=
  match events with
  | [] => fun st => (Waiting, st)
  | Connection r :: rest => fun st =>
      serve_forever db rest
        {| stdout := stdout st; socket := socket st;
           sent := sent st ++ [respond E db r] |}
  | SIGINT :: _ => fun st => (Raise KeyboardInterrupt, st)
  end.

(** The script from top to bottom. *)
Definition main (events : list event) : P unit :=
  let db := register_types db0 in
  let current_dir := getcwd E in
  print ("Starting server at http://localhost:" ++ str PORT);;
  print ("Serving files from: " ++ current_dir);;
  TCPServer bind_ok;;
  with_server
    (try_except (serve_forever db events) KeyboardInterrupt
       (print (nl ++ "Server stopped.");;
        server_close)).

Definition start : process := {| stdout := []; socket := None; sent := [] |}.

End Main.

(** The exit code of the interpreter: 0 at the end of the script, 1 for an
    exception that nothing caught; none while the script still runs. *)
Definition exit_code {A} (res : result A) : option Z :=
  match res with
  | Return _ => Some 0
  | Raise _ => Some 1
  | Waiting => None
  end.

(** ** Observations on a response *)

Definition head_lines (w : list chunk) : list hline :=
  flat_map (fun c => match c with Head ls => ls | Body _ => [] end) w.

Fixpoint body (w : list chunk) : string :=
  match w with
  | [] => ""
  | Head _ :: w' => body w'
  | Body d :: w' => d ++ body w'
  end.

Definition status (w : list chunk) : option Z :=
  match w with
  | Head (Status _ code _ :: _) :: _ => Some code
  | _ => None
  end.

Definition has_header (keyword value : string) (w : list chunk) : Prop :=
  In (Header keyword value) (head_lines w).

(** The bytes on the wire. *)
Definition wire (w : list chunk) : string :=
  String.concat "" (map chunk_bytes w).

Definition cors_headers : list hline :=
  [ Header "Access-Control-Allow-Origin" "*";
    Header "Access-Control-Allow-Methods" "GET, POST, OPTIONS";
    Header "Access-Control-Allow-Headers" "Content-Type" ].

(** A host for the examples: files [/srv/index.html], [/srv/app.js] and
    [/srv/style.css], and the directory [/srv]. *)
Definition example_files : list (string * file) :=
  [ ("/srv/index.html",
     {| f_content := "<html></html>"; st_size := 13; st_mtime := 1767225600 |});
    ("/srv/app.js",
     {| f_content := "export {};"; st_size := 10; st_mtime := 1767225600 |});
    ("/srv/style.css",
     {| f_content := "body {}"; st_size := 7; st_mtime := 1767225600 |}) ].

Fixpoint assoc {A} (l : list (string * A)) (key : string) : option A :=
  match l with
  | [] => None
  | (k, v) :: l' => if String.eqb k key then Some v else assoc l' key
  end.

Definition example_env : Env :=
  {| sys_version := "Python/3.11.2";
     time_now := "Tue, 03 Nov 2026 12:00:00 GMT";
     formatdate := fun t => if t =? 1767225600
                            then "Thu, 01 Jan 2026 00:00:00 GMT" else "";
     getcwd := "/srv";
     getfilesystemencoding := "utf-8";
     unquote_escapes := fun s => s;
     repr := fun s => "'" ++ s ++ "'";
     encode_utf8 := fun s => s;
     urlsplit_path := fun s => split1_head "?" (split1_head "#" s);
     redirect_url := fun s => s ++ "/";
     parsedate_utc := fun s =>
       if String.eqb s "Tue, 03 Nov 2026 12:00:00 GMT"
       then Some 1793707200 else None;
     isdir := fun p => String.eqb p "/srv" || String.eqb p "/srv/";
     isfile := fun p => match assoc example_files p with
                        | Some _ => true | None => false end;
     open_rb := assoc example_files;
     listing := fun _ _ => None |}.

Definition example_db : mimetypes.types_map :=
  register_types {[ ".html" := "text/html" ]}.

Definition GET (p : string) : request :=
  {| req_command := "GET"; req_path := p; req_version := "HTTP/1.1";
     req_headers := [] |}.


(** A name that [translate_path] appends to the serving root: not empty,
    without a slash, and neither "." nor "..". *)
Definition simple_name (w : string) : bool :=
  negb (String.eqb w "")
  && negb (contains "/" w || String.eqb w "." || String.eqb w "..").

(** ** Connections: what the handler reads, and how it can end *)

(** What [rfile] holds for a connection: the result of the first
    [readline(65537)], and of the calls that follow; after the last one
    [readline] returns the empty string. *)
Record connection := {
  raw_requestline : string;
  header_lines : list string;
}.

(** [s.rstrip('\r\n')] *)
Fixpoint rstrip_crlf (s : string) : string :=
  match s with
  | EmptyString => EmptyString
  | String c s' =>
      match rstrip_crlf s' with
      | EmptyString =>
          if Ascii.eqb c "013" || Ascii.eqb c "010" then EmptyString
          else String c EmptyString
      | rest => String c rest
      end
  end.

(** [s.split()]: the words between runs of white space. *)
Fixpoint split_ws (s : string) : list string :=
  match s with
  | EmptyString => []
  | String c s' =>
      if isspace c then split_ws s'
      else match s' with
           | EmptyString => [String c EmptyString]
           | String d _ =>
               if isspace d then String c EmptyString :: split_ws s'
               else match split_ws s' with
                    | w :: ws => String c w :: ws
                    | [] => [String c EmptyString]
                    end
           end
  end.

(** [s.split(c, 1)[1]]: the part after the first [c]. *)
Fixpoint split1_tail (c : ascii) (s : string) : string :=
  match s with
  | EmptyString => EmptyString
  | String d s' => if Ascii.eqb c d then s' else split1_tail c s'
  end.

(** [s.lstrip(c)] *)
Fixpoint lstrip_char (c : ascii) (s : string) : string :=
  match s with
  | EmptyString => EmptyString
  | String d s' => if Ascii.eqb c d then lstrip_char c s' else s
  end.

(** *** http.client: reading the header lines *)

Definition _MAXLINE : Z := 65536.
Definition _MAXHEADERS : Z := 100.

(** How [_read_headers] ends: with the lines read, with LineTooLong, or
    with the HTTPException for too many headers. *)
Inductive headers_read :=
| HeaderLines (lines : list string)
| LineTooLong
| TooManyHeaders.

(** One turn of the loop of [_read_headers] on the line just read; [next]
    is the rest of the loop. *)
Definition read_header_line (headers : list string) (line : string)
    (next : list string -> headers_read) : headers_read :=
  if _MAXLINE <? len line then LineTooLong
  else
    let headers := (headers ++ [line])%list in
    if _MAXHEADERS <? Z.of_nat (length headers) then TooManyHeaders
    else if String.eqb line crlf || String.eqb line nl || String.eqb line ""
    then HeaderLines headers
    else next headers.

Fixpoint _read_headers (rfile : list string) (headers : list string)
  : headers_read :=
  match rfile with
  | [] => read_header_line headers "" HeaderLines
  | line :: rest => read_header_line headers line (_read_headers rest)
  end.

(** *** [parse_request] *)

(** What [parse_request] makes of a connection: the request is stored in
    the handler; or the line is blank and nothing is done; or the request
    line is refused and an error reply is sent while [self.path] is not
    set ([version] is [self.request_version] at that moment); or the
    header lines are refused and the reply 431 is sent by the handler that
    holds the request line [r]. *)
Inductive parsed :=
| Accepted (r : request)
| Ignored
| Rejected (version : string) (code : Z) (message : string)
| HeadersRejected (r : request) (message explain : string).

Section ParseRequest.
Variable E : Env.
Variable int : string -> option Z.      (* int(s); None: ValueError *)
(** [email.parser.Parser(_class=HTTPMessage).parsestr] *)
Variable parsestr : string -> list (string * string).

(** The [try] block of [parse_request]: the two numbers of "HTTP/x.y". *)
Definition version_number (version : string) : option (Z * Z) :=
  if negb (startswith version "HTTP/") then None
  else match split "." (split1_tail "/" version) with
       | [major; minor] =>
           match int major, int minor with
           | Some x, Some y => Some (x, y)
           | _, _ => None
           end
       | _ => None
       end.

Definition parse_request (c : connection) : parsed :=
  let requestline := rstrip_crlf (raw_requestline c) in
  let words := split_ws requestline in
  let n := Z.of_nat (length words) in
  match words with
  | [] => Ignored
  | command :: rest =>
      let version := List.last words "" in
      let checked :=
        if 3 <=? n then
          match version_number version with
          | None =>
              inl (Rejected "HTTP/0.9" 400
                     ("Bad request version (" ++ repr E version ++ ")"))
          | Some (major, minor) =>
              if (2 <? major) || ((major =? 2) && (0 <=? minor))
              then inl (Rejected "HTTP/0.9" 505
                          ("Invalid HTTP version ("
                           ++ split1_tail "/" version ++ ")"))
              else inr version
          end
        else inr "HTTP/0.9" in
      match checked with
      | inl rejected => rejected
      | inr request_version =>
          if negb ((2 <=? n) && (n <=? 3))
          then Rejected request_version 400
                 ("Bad request syntax (" ++ repr E requestline ++ ")")
          else
            let path := List.hd "" rest in
            if (n =? 2) && negb (String.eqb command "GET")
            then Rejected request_version 400
                   ("Bad HTTP/0.9 request type (" ++ repr E command ++ ")")
            else
              let path := if startswith path "//"
                          then "/" ++ lstrip_char "/" path
                          else path in
              let request (hs : list (string * string)) :=
                {| req_command := command; req_path := path;
                   req_version := request_version; req_headers := hs |} in
              match _read_headers (header_lines c) [] with
              | LineTooLong =>
                  HeadersRejected (request []) "Line too long"
                    ("got more than " ++ str _MAXLINE
                     ++ " bytes when reading header line")
              | TooManyHeaders =>
                  HeadersRejected (request []) "Too many headers"
                    ("got more than " ++ str _MAXHEADERS ++ " headers")
              | HeaderLines lines =>
                  Accepted (request (parsestr (String.concat "" lines)))
              end
      end
  end.

End ParseRequest.


(** *** Methods that may raise *)

(** The exceptions that a handler method ends with: the AttributeError of
    an attribute that is not set, and the ValueError of [open]. *)
Inductive handler_exn := AttributeError | ValueError.

Inductive raised (A : Type) :=
| Done (a : A)
| Raised (e : handler_exn).
Arguments Done {A} a.
Arguments Raised {A} e.

Definition MX (A : Type) : Type := handler -> raised A * handler.

#[export] Instance MX_ret : MRet MX := fun A x self => (Done x, self).
#[export] Instance MX_bind : MBind MX :=
  fun A B f m self =>
    match m self with
    | (Done x, self') => f x self'
    | (Raised e, self') => (Raised e, self')
    end.

Definition lift {A} (m : M A) : MX A := fun self =>
  let '(x, self') := m self in (Done x, self').

Definition raise {A} (e : handler_exn) : MX A := fun self =>
  (Raised e, self).

(** How the method ended and what the client has received. *)
Definition received {A} (m : MX A) (self : handler)
  : raised A * list chunk :=
  let '(res, self') := m self in (res, wfile self').

(** The override of [end_headers] on a handler whose [path] is not set:
    the three CORS headers are buffered, then reading [self.path] raises
    AttributeError, before [super().end_headers()] flushes the buffer. *)
Definition end_headers_unset : MX unit :=
  lift (send_header "Access-Control-Allow-Origin" "*");;
  lift (send_header "Access-Control-Allow-Methods" "GET, POST, OPTIONS");;
  lift (send_header "Access-Control-Allow-Headers" "Content-Type");;
  raise AttributeError.

(** The entries of [responses] for the codes of [parse_request]. *)
Definition parse_responses (code : Z) : string * string :=
  if code =? 400
  then ("Bad Request", "Bad request syntax or unsupported method")
  else if code =? 414 then ("Request-URI Too Long", "URI is too long")
  else if code =? 505
  then ("HTTP Version Not Supported", "Cannot fulfill request")
  else ("???", "???").

(** [send_error] as [parse_request] and [handle_one_request] call it,
    before [path] is set. *)
Definition send_error_unset (E : Env) (code : Z) (message : option string)
  : MX unit :=
  let '(shortmsg, longmsg) := parse_responses code in
  let message := default shortmsg message in
  let explain := longmsg in
  lift (send_response E code (Some message));;
  lift (send_header "Connection" "close");;
  let body :=
    if (200 <=? code)
       && negb ((code =? 204) || (code =? 205) || (code =? 304))
    then Some (encode_utf8 E
                 (error_message_format code (html_escape message)
                                            (html_escape explain)))
    else None in
  match body with
  | Some b =>
      lift (send_header "Content-Type" error_content_type);;
      lift (send_header "Content-Length" (str (len b)))
  | None => mret tt
  end;;
  end_headers_unset;;
  cmd ← lift (gets command);
  match body with
  | Some b =>
      lift (when (negb (String.eqb cmd "HEAD") && negb (String.eqb b ""))
              (modify (wfile_write (Body b))))
  | None => mret tt
  end.

(** The handler object of a new connection, before the request line is
    read: [path] is not set (the field is not read), [command] is None
    (written as the empty string; it is only compared with "HEAD"). *)
Definition unparsed_handler (version : string) : handler :=
  {| command := ""; path := ""; request_version := version; headers := [];
     _headers_buffer := []; wfile := []; close_connection := true |}.

(** *** The handler class of server.py on a connection *)

Module Conn.

Section Handler.
Variable E : Env.
Variable db : mimetypes.types_map.
Variable int : string -> option Z.
Variable parsestr : string -> list (string * string).
(** The names for which [open] raises ValueError and not OSError: those
    with a NUL byte, and those that the file system encoding cannot
    encode.  [os.path.isdir] and [os.path.isfile] catch that ValueError and
    return False. *)
Variable invalid_name : string -> bool.

(** [open(path, 'rb')] inside [try: ... except OSError:]; None: OSError. *)
Definition open (path : string) : MX (option file) :=
  if invalid_name path then raise ValueError else mret (open_rb E path).

(** The part of [send_head] after the directory case. *)
Definition send_head_file (path : string) : MX (option string) :=
  let ctype := guess_type db path in
  if endswith path "/" then
    lift (send_error E end_headers 404 (Some "File not found") None);;
    mret None
  else
    f ← open path;
    match f with
    | None =>
        lift (send_error E end_headers 404 (Some "File not found") None);;
        mret None
    | Some f =>
        hs ← lift (gets headers);
        if not_modified_since E hs f then
          lift (send_response E 304 None;;
                end_headers);;
          mret None
        else
          lift (send_response E 200 None;;
                send_header "Content-type" ctype;;
                send_header "Content-Length" (str (st_size f));;
                send_header "Last-Modified" (formatdate E (st_mtime f));;
                end_headers);;
          mret (Some (f_content f))
    end.

Definition send_head : MX (option string) :=
  p ← lift (gets http_server.path);
  let path := translate_path E p in
  if isdir E path then
    if negb (endswith (urlsplit_path E p) "/") then
      lift (send_response E 301 None;;
            send_header "Location" (redirect_url E p);;
            send_header "Content-Length" "0";;
            end_headers);;
      mret None
    else if isfile E (posixpath.join path "index.html")
    then send_head_file (posixpath.join path "index.html")
    else if isfile E (posixpath.join path "index.htm")
    then send_head_file (posixpath.join path "index.htm")
    else lift (list_directory E end_headers path)
  else send_head_file path.

Definition do_GET : MX unit :=
  f ← send_head;
  match f with
  | Some source => lift (copyfile source)
  | None => mret tt
  end.

Definition do_HEAD : MX unit :=
  f ← send_head;
  mret tt.

Definition getattr (mname : string) : option (MX unit) :=
  if String.eqb mname "do_OPTIONS" then Some (lift (do_OPTIONS E))
  else if String.eqb mname "do_GET" then Some do_GET
  else if String.eqb mname "do_HEAD" then Some do_HEAD
  else None.

(** The end of [handle_one_request]: the method of the command is looked
    up and called. *)
Definition dispatch : MX unit :=
  cmd ← lift (gets command);
  let mname := "do_" ++ cmd in
  match getattr mname with
  | None =>
      lift (send_error E end_headers 501
              (Some ("Unsupported method (" ++ repr E cmd ++ ")")) None)
  | Some method => method
  end.

(** [handle_one_request] on a new connection: how the handler ends and
    what the client has received. *)
Definition handle_one_request (c : connection)
  : raised unit * list chunk :=
  if _MAXLINE <? len (raw_requestline c) then
    received (send_error_unset E 414 None) (unparsed_handler "")
  else if String.eqb (raw_requestline c) "" then (Done tt, [])
  else
    match parse_request E int parsestr c with
    | Ignored => (Done tt, [])
    | Rejected version code message =>
        received (send_error_unset E code (Some message))
          (unparsed_handler version)
    | HeadersRejected r message explain =>
        received (lift (send_error E end_headers 431 (Some message)
                          (Some explain)))
          (new_handler r)
    | Accepted r => received dispatch (new_handler r)
    end.

End Handler.

(** *** socketserver: the serve loop with its exception handler *)

(** What happens while the script runs: a client connects, or the
    interrupt signal arrives. *)
Inductive arrival :=
| Connects (c : connection)
| Interrupt.

(** The process, and the tracebacks that [handle_error] has printed to
    stderr (the exception of each). *)
Record running := {
  this : process;
  tracebacks : list handler_exn;
}.

Definition PX (A : Type) : Type := running -> result A * running.

#[export] Instance PX_ret : MRet PX := fun A x st => (Return x, st).
#[export] Instance PX_bind : MBind PX :=
  fun A B f m st =>
    match m st with
    | (Return x, st') => f x st'
    | (Raise e, st') => (Raise e, st')
    | (Waiting, st') => (Waiting, st')
    end.

Definition lift_P {A} (m : P A) : PX A := fun st =>
  let '(res, p) := m (this st) in
  (res, {| this := p; tracebacks := tracebacks st |}).

(** [try: m except e: h] *)
Definition try_except {A} (m : PX A) (e : exn) (h : PX A) : PX A := fun st =>
  match m st with
  | (Raise e', st') => if exn_eqb e e' then h st' else (Raise e', st')
  | other => other
  end.

(** [with httpd: m]: [__exit__] calls [server_close] however [m] ends. *)
Definition with_server (m : PX unit) : PX unit := fun st =>
  match m st with
  | (Waiting, st') => (Waiting, st')
  | (res, st') => (res, snd (lift_P server_close st'))
  end.

(** What the client of the connection has received goes on record. *)
Definition client_receives (w : list chunk) : PX unit := fun st =>
  (Return tt,
   {| this := {| stdout := stdout (this st); socket := socket (this st);
                 sent := sent (this st) ++ [w] |};
      tracebacks := tracebacks st |}).

(** [BaseServer.handle_error]: the traceback is printed. *)
Definition handle_error (e : handler_exn) : PX unit := fun st =>
  (Return tt, {| this := this st; tracebacks := tracebacks st ++ [e] |}).

Section Main.
Variable E : Env.
Variable db0 : mimetypes.types_map.
Variable int : string -> option Z.
Variable parsestr : string -> list (string * string).
Variable invalid_name : string -> bool.
Variable bind_ok : bool.

(** [process_request]: a handler object is made for the connection and
    runs [handle_one_request]; what it wrote has been sent when it ends,
    normally or not. *)
Definition process_request (db : mimetypes.types_map) (c : connection)
  : PX (raised unit) :=
  let '(res, w) := handle_one_request E db int parsestr invalid_name c in
  client_receives w;;
  mret res.

(** [_handle_request_noblock]: [except Exception: self.handle_error(...)];
    AttributeError and ValueError are both of class Exception. *)
Definition _handle_request_noblock (db : mimetypes.types_map)
    (c : connection) : PX unit :=
  res ← process_request db c;
  match res with
  | Done _ => mret tt
  | Raised e => handle_error e
  end.

Fixpoint serve_forever (db : mimetypes.types_map) (arrivals : list arrival)
  : PX unit :=
  match arrivals with
  | [] => fun st => (Waiting, st)
  | Connects c :: rest =>
      _handle_request_noblock db c;; serve_forever db rest
  | Interrupt :: _ => fun st => (Raise KeyboardInterrupt, st)
  end.

(** The script from top to bottom. *)
Definition main (arrivals : list arrival) : PX unit :=
  let db := register_types db0 in
  let current_dir := getcwd E in
  lift_P (print ("Starting server at http://localhost:" ++ str PORT));;
  lift_P (print ("Serving files from: " ++ current_dir));;
  lift_P (TCPServer bind_ok);;
  with_server
    (try_except (serve_forever db arrivals) KeyboardInterrupt
       (lift_P (print (nl ++ "Server stopped."));;
        lift_P server_close)).

End Main.

Definition start : running := {| this := start; tracebacks := [] |}.

End Conn.

(** [int] on strings of decimal digits, for the examples. *)
Fixpoint digits (acc : Z) (s : string) : option Z :=
  match s with
  | EmptyString => Some acc
  | String c s' =>
      let n := Z.of_nat (nat_of_ascii c) in
      if (48 <=? n) && (n <=? 57) then digits (10 * acc + (n - 48)) s'
      else None
  end.

Definition example_int (s : string) : option Z :=
  if String.eqb s "" then None else digits 0 s.

(** A header parser for the examples: one "name: value" per line. *)
Definition example_header (line : string) : list (string * string) :=
  let line := rstrip_crlf line in
  if contains ":" line
  then [(split1_head ":" line, lstrip_char " " (split1_tail ":" line))]
  else [].

Definition example_parsestr (s : string) : list (string * string) :=
  flat_map example_header (split "010" s).

(** The names with a NUL byte. *)
Definition has_nul (name : string) : bool := contains "000" name.

Definition connection_of (requestline : string) : connection :=
  {| raw_requestline := requestline ++ crlf; header_lines := [crlf] |}.

(** ** States reached by the header-emitting methods *)

(** The request speaks a version that has response heads: every
    header-emitting method tests this. *)
Definition live (self : handler) : Prop :=
  String.eqb (request_version self) "HTTP/0.9" = false.

(** [ls] appended to the headers buffer. *)
Definition emit (ls : list hline) (self : handler) : handler :=
  {| command := command self; path := path self;
     request_version := request_version self; headers := headers self;
     _headers_buffer := _headers_buffer self ++ ls;
     wfile := wfile self; close_connection := close_connection self |}.

(** The line that [end_headers] adds for a target that ends in ".js". *)
Definition forced (p : string) : list hline :=
  if endswith p ".js"
  then [Header "Content-Type" "application/javascript"] else [].

(** The tail of every response head: what the override of [end_headers]
    puts after the lines of the base handler. *)
Definition trailer (p : string) : list hline :=
  cors_headers ++ forced p ++ [Blank].

(** The state after the override of [end_headers]. *)
Definition finish (self : handler) : handler :=
  {| command := command self; path := path self;
     request_version := request_version self; headers := headers self;
     _headers_buffer := [];
     wfile := wfile self
              ++ [Head (_headers_buffer self ++ trailer (path self))];
     close_connection := close_connection self |}.

(** The three lines of [send_response]. *)
Definition response_lines (E : Env) (code : Z) (message : string)
  : list hline :=
  [ Status protocol_version code message;
    Header "Server" (version_string E);
    Header "Date" (time_now E) ].

(** The page and the head lines of [send_error]. *)
Definition error_page (E : Env) (code : Z) (message explain : string)
  : string :=
  encode_utf8 E (error_message_format code (html_escape message)
                                           (html_escape explain)).

Definition error_tail (E : Env) (code : Z) (message explain : string)
  : list hline :=
  [ Header "Connection" "close";
    Header "Content-Type" error_content_type;
    Header "Content-Length" (str (len (error_page E code message explain))) ].

Definition error_lines (E : Env) (code : Z) (message explain : string)
  : list hline :=
  response_lines E code message ++ error_tail E code message explain.

(** The body chunks that follow: none for HEAD or for an empty page. *)
Definition page_chunks (cmd page : string) : list chunk :=
  if negb (String.eqb cmd "HEAD") && negb (String.eqb page "")
  then [Body page] else [].

(** The whole reply of [send_error] to a fresh handler. *)
Definition error_reply (E : Env) (r : request) (code : Z)
    (message explain : string) : list chunk :=
  Head (error_lines E code message explain ++ trailer (req_path r))
  :: page_chunks (req_command r) (error_page E code message explain).

(** The head lines of a 200 reply for a file. *)
Definition file_tail (E : Env) (ctype : string) (f : file) : list hline :=
  [ Header "Content-type" ctype;
    Header "Content-Length" (str (st_size f));
    Header "Last-Modified" (formatdate E (st_mtime f)) ].

Definition file_lines (E : Env) (ctype : string) (f : file) : list hline :=
  response_lines E 200 "OK" ++ file_tail E ctype f.

Definition content_chunks (content : string) : list chunk :=
  if negb (String.eqb content "") then [Body content] else [].

(** [cs] written to [wfile]. *)
Definition write_all (cs : list chunk) (self : handler) : handler :=
  {| command := command self; path := path self;
     request_version := request_version self; headers := headers self;
     _headers_buffer := _headers_buffer self;
     wfile := wfile self ++ cs; close_connection := close_connection self |}.

(** The state after [send_error]. *)
Definition after_error (E : Env) (code : Z) (message explain : string)
    (self : handler) : handler :=
  write_all (page_chunks (command self) (error_page E code message explain))
    (finish (set_close_connection true
               (emit (error_lines E code message explain) self))).

(** The head lines of the page of [list_directory]. *)
Definition listing_tail (E : Env) (encoded : string) : list hline :=
  [ Header "Content-type" ("text/html; charset=" ++ getfilesystemencoding E);
    Header "Content-Length" (str (len encoded)) ].

Definition listing_lines (E : Env) (encoded : string) : list hline :=
  response_lines E 200 "OK" ++ listing_tail E encoded.

(** The head lines of the redirect for a directory without a slash. *)
Definition redirect_tail (E : Env) (p : string) : list hline :=
  [ Header "Location" (redirect_url E p);
    Header "Content-Length" "0" ].

Definition redirect_lines (E : Env) (p : string) : list hline :=
  response_lines E 301 "Moved Permanently" ++ redirect_tail E p.

(** The lines that the base handler puts between the three lines of
    [send_response] and the trailer. *)
Definition base_line (l : hline) : bool :=
  match l with
  | Header k v =>
      String.eqb k "Connection" || String.eqb k "Content-Length"
      || String.eqb k "Content-type" || String.eqb k "Last-Modified"
      || String.eqb k "Location"
      || (String.eqb k "Content-Type" && String.eqb v error_content_type)
  | _ => false
  end.

Definition is_body (c : chunk) : bool :=
  match c with Body _ => true | Head _ => false end.

(** [st] is [self] after one reply: one head, made of the lines of
    [send_response], lines of the base handler and the trailer, then body
    chunks only. *)
Definition replied (E : Env) (self st : handler) : Prop :=
  exists (code : Z) (message : string) (hs : list hline) (bs : list chunk),
    wfile st = (wfile self ++
                Head (_headers_buffer self ++ response_lines E code message
                      ++ hs ++ trailer (path self)) :: bs)%list
    /\ forallb base_line hs = true /\ forallb is_body bs = true
    /\ path st = path self /\ command st = command self.

(** The same for the response to a request. *)
Definition shaped (E : Env) (r : request) (w : list chunk) : Prop :=
  exists (code : Z) (message : string) (hs : list hline) (bs : list chunk),
    w = (Head (response_lines E code message ++ hs ++ trailer (req_path r))
         :: bs)%list
    /\ forallb base_line hs = true /\ forallb is_body bs = true.

(** ** What the claims speak of *)

(** The three CORS headers are there, each with its value and no other. *)
Definition cors_present (w : list chunk) : Prop :=
  forall k v, In (Header k v) cors_headers ->
    has_header k v w /\ forall v', has_header k v' w -> v' = v.

(** The connections that [serve_forever] handles: those before the first
    interrupt. *)
Fixpoint served (events : list event) : list request :=
  match events with
  | Connection r :: rest => r :: served rest
  | _ => []
  end.

Definition is_connection (e : event) : bool :=
  match e with Connection _ => true | SIGINT => false end.

(** The values of the content-type lines of a head, whatever the case of
    the keyword. *)
Fixpoint content_types (ls : list hline) : list string :=
  match ls with
  | [] => []
  | Header k v :: ls' =>
      if String.eqb (lower k) "content-type" then v :: content_types ls'
      else content_types ls'
  | _ :: ls' => content_types ls'
  end.

(** The host agrees with [E] on what a reply that reads no file is made
    of. *)
Definition same_software (E E' : Env) : Prop :=
  sys_version E' = sys_version E /\ time_now E' = time_now E
  /\ repr E' = repr E /\ encode_utf8 E' = encode_utf8 E.

Definition request_of (cmd p : string) (hs : list (string * string))
  : request :=
  {| req_command := cmd; req_path := p; req_version := "HTTP/1.1";
     req_headers := hs |}.

(** ** The reply as a function of the request *)

(** The ways in which [send_head] ends. *)
Inductive outcome :=
| Redirect
| NotFound (message : string)
| NotModified
| File (fp : string) (f : file)
| Listing (encoded : string).

(** Which way [send_head] goes for the file name [fp]. *)
Definition classify_file (E : Env) (hs : list (string * string))
    (fp : string) : outcome :=
  if endswith fp "/" then NotFound "File not found"
  else match open_rb E fp with
       | None => NotFound "File not found"
       | Some f => if not_modified_since E hs f then NotModified
                   else File fp f
       end.

(** Which way [send_head] goes for the target [p] and the headers [hs]. *)
Definition classify (E : Env) (p : string) (hs : list (string * string))
  : outcome :=
  let fp := translate_path E p in
  if isdir E fp then
    if negb (endswith (urlsplit_path E p) "/") then Redirect
    else if isfile E (posixpath.join fp "index.html")
    then classify_file E hs (posixpath.join fp "index.html")
    else if isfile E (posixpath.join fp "index.htm")
    then classify_file E hs (posixpath.join fp "index.htm")
    else match listing E fp p with
         | None => NotFound "No permission to list directory"
         | Some encoded => Listing encoded
         end
  else classify_file E hs fp.

(** The head lines in front of the trailer, the page written by
    [send_error], and what [send_head] returns for [do_GET] to copy. *)
Definition outcome_lines (E : Env) (db : mimetypes.types_map) (p : string)
    (o : outcome) : list hline :=
  match o with
  | Redirect => redirect_lines E p
  | NotFound m => error_lines E 404 m "Nothing matches the given URI"
  | NotModified => response_lines E 304 "Not Modified"
  | File fp f => file_lines E (guess_type db fp) f
  | Listing encoded => listing_lines E encoded
  end.

Definition outcome_page (E : Env) (cmd : string) (o : outcome)
  : list chunk :=
  match o with
  | NotFound m =>
      page_chunks cmd (error_page E 404 m "Nothing matches the given URI")
  | _ => []
  end.

Definition outcome_source (o : outcome) : option string :=
  match o with
  | File _ f => Some (f_content f)
  | Listing encoded => Some encoded
  | _ => None
  end.


(** The response to [r], read off the request: by method, then by the
    outcome of the file lookup. *)
Definition reply (E : Env) (db : mimetypes.types_map) (r : request)
  : list chunk :=
  let p := req_path r in
  let o := classify E p (req_headers r) in
  if String.eqb (req_command r) "OPTIONS" then
    [Head (response_lines E 200 "OK" ++ trailer p)]
  else if String.eqb (req_command r) "GET" then
    Head (outcome_lines E db p o ++ trailer p)
    :: outcome_page E "GET" o
       ++ match outcome_source o with
          | Some source => content_chunks source
          | None => []
          end
  else if String.eqb (req_command r) "HEAD" then
    [Head (outcome_lines E db p o ++ trailer p)]
  else
    error_reply E r 501
      ("Unsupported method (" ++ repr E (req_command r) ++ ")")
      "Server does not support this operation".

(** The same request with another method. *)
Definition with_command (cmd : string) (r : request) : request :=
  {| req_command := cmd; req_path := req_path r;
     req_version := req_version r; req_headers := req_headers r |}.

(** ** The same methods under another [end_headers] *)

(** The state after an [end_headers] that puts the lines [tr path] at the
    end of the head and sends it. *)
Definition finish_with (tr : string -> list hline) (self : handler)
  : handler :=
  {| command := command self; path := path self;
     request_version := request_version self; headers := headers self;
     _headers_buffer := [];
     wfile := (wfile self
               ++ [Head (_headers_buffer self ++ tr (path self))])%list;
     close_connection := close_connection self |}.

(** The state after [send_error] under such an [end_headers]. *)
Definition after_error_with (tr : string -> list hline) (E : Env) (code : Z)
    (message explain : string) (self : handler) : handler :=
  write_all (page_chunks (command self) (error_page E code message explain))
    (finish_with tr (set_close_connection true
                       (emit (error_lines E code message explain) self))).

(** What the base class ends every head with. *)
Definition blank_line (p : string) : list hline := [Blank].

(** SimpleHTTPRequestHandler without the subclass: [end_headers] is the
    method of BaseHTTPRequestHandler and there is no [do_OPTIONS]. *)
Definition base_getattr (E : Env) (db : mimetypes.types_map)
    (mname : string) : option (M unit) :=
  if String.eqb mname "do_GET" then Some (do_GET E db super_end_headers)
  else if String.eqb mname "do_HEAD" then Some (do_HEAD E db super_end_headers)
  else None.

Definition base_respond (E : Env) (db : mimetypes.types_map) (r : request)
  : list chunk :=
  wfile (snd (handle_one_request E super_end_headers (base_getattr E db)
                (new_handler r))).

(** The lines that the methods of the base class put in the head, and the
    body chunks that follow the head, for a request that is not
    OPTIONS. *)
Definition reply_lines (E : Env) (db : mimetypes.types_map) (r : request)
  : list hline * list chunk :=
  let p := req_path r in
  let o := classify E p (req_headers r) in
  if String.eqb (req_command r) "GET" then
    (outcome_lines E db p o,
     (outcome_page E "GET" o
      ++ match outcome_source o with
         | Some source => content_chunks source
         | None => []
         end)%list)
  else if String.eqb (req_command r) "HEAD" then (outcome_lines E db p o, [])
  else
    (error_lines E 501
       ("Unsupported method (" ++ repr E (req_command r) ++ ")")
       "Server does not support this operation",
     page_chunks (req_command r)
       (error_page E 501
          ("Unsupported method (" ++ repr E (req_command r) ++ ")")
          "Server does not support this operation")).

(** ** Which connections the handler answers *)

(** The name that [send_head] passes to [open], if it gets there. *)
Definition opened_file (fp : string) : option string :=
  if endswith fp "/" then None else Some fp.

Definition opened (E : Env) (p : string) : option string :=
  let fp := translate_path E p in
  if isdir E fp then
    if negb (endswith (urlsplit_path E p) "/") then None
    else if isfile E (posixpath.join fp "index.html")
    then opened_file (posixpath.join fp "index.html")
    else if isfile E (posixpath.join fp "index.htm")
    then opened_file (posixpath.join fp "index.htm")
    else None
  else opened_file fp.

(** [open] raises ValueError while the request [r] is handled. *)
Definition open_raises (E : Env) (invalid_name : string -> bool)
    (r : request) : bool :=
  (String.eqb (req_command r) "GET" || String.eqb (req_command r) "HEAD")
  && match opened E (req_path r) with
     | Some name => invalid_name name
     | None => false
     end.

(** The connections that arrive before the first interrupt. *)
Fixpoint connections (arrivals : list Conn.arrival) : list connection :=
  match arrivals with
  | Conn.Connects c :: rest => c :: connections rest
  | _ => []
  end.

Definition is_connects (a : Conn.arrival) : bool :=
  match a with Conn.Connects _ => true | Conn.Interrupt => false end.

(** The traceback that the end of a handler leaves on stderr. *)
Definition traceback {A} (res : raised A) : list handler_exn :=
  match res with Done _ => [] | Raised e => [e] end.






(** *** Step lemmas *)

(** Two descriptions of the same handler state: unfold the state
    transformers and compare the buffers up to associativity. *)
Ltac same_state :=
  unfold after_error, write_all, wfile_write, finish, buffer_clear, emit,
    set_close_connection, error_lines, error_tail, error_page, file_lines,
    file_tail, listing_lines, listing_tail, redirect_lines, redirect_tail,
    response_lines, html_escape, trailer;
  cbn; rewrite <- ?app_assoc, ?app_nil_r; reflexivity.

Lemma run_bind {A B} (m : M A) (f : A -> M B) self x self' :
  m self = (x, self') -> (m ≫= f) self = f x self'.
Proof. intros H. unfold mbind, M_bind. rewrite H. reflexivity. Qed.

Lemma emit_emit a b self : emit b (emit a self) = emit (a ++ b) self.
Proof. unfold emit; cbn. f_equal. symmetry. apply app_assoc. Qed.

Lemma send_header_live k v self :
  live self -> String.eqb (lower k) "connection" = false ->
  send_header k v self = (tt, emit [Header k v] self).
Proof.
  unfold live, send_header. intros Hv Hk.
  unfold mbind, M_bind, gets, when, modify, pass, mret, M_ret.
  rewrite Hv, Hk. reflexivity.
Qed.

Lemma send_header_close self :
  live self ->
  send_header "Connection" "close" self
  = (tt, set_close_connection true (emit [Header "Connection" "close"] self)).
Proof.
  unfold live, send_header. intros Hv.
  unfold mbind, M_bind, gets, when, modify, pass, mret, M_ret.
  rewrite Hv. reflexivity.
Qed.

Lemma send_response_live E code message self :
  live self ->
  send_response E code (Some message) self
  = (tt, emit (response_lines E code message) self).
Proof.
  intros Hv. unfold send_response.
  erewrite run_bind; cycle 1.
  { unfold send_response_only, mbind, M_bind, gets, when, modify.
    rewrite Hv. reflexivity. }
  erewrite run_bind; cycle 1.
  { apply send_header_live; [exact Hv | reflexivity]. }
  rewrite send_header_live; [| exact Hv | reflexivity].
  unfold emit, buffer_append, response_lines; cbn.
  rewrite <- !app_assoc. reflexivity.
Qed.

Lemma send_response_phrase E code phrase long self :
  live self -> responses code = Some (phrase, long) ->
  send_response E code None self
  = (tt, emit (response_lines E code phrase) self).
Proof.
  intros Hv Hc. rewrite <- (send_response_live E code phrase self Hv).
  unfold send_response, send_response_only. rewrite Hc. reflexivity.
Qed.

Lemma super_end_headers_live self :
  live self ->
  super_end_headers self
  = (tt, buffer_clear (wfile_write (Head (_headers_buffer self ++ [Blank]))
                                   (emit [Blank] self))).
Proof.
  unfold live, super_end_headers. intros Hv.
  unfold mbind, M_bind, gets, when, modify, flush_headers.
  rewrite Hv. reflexivity.
Qed.

Lemma end_headers_live self :
  live self -> end_headers self = (tt, finish self).
Proof.
  intros Hv. unfold end_headers.
  erewrite run_bind; cycle 1.
  { apply send_header_live; [exact Hv | reflexivity]. }
  erewrite run_bind; cycle 1.
  { apply send_header_live; [exact Hv | reflexivity]. }
  erewrite run_bind; cycle 1.
  { apply send_header_live; [exact Hv | reflexivity]. }
  rewrite !emit_emit. cbn [app].
  erewrite run_bind; cycle 1. { reflexivity. }
  cbn [path emit].
  unfold finish, trailer, forced.
  destruct (endswith (path self) ".js").
  - erewrite run_bind; cycle 1.
    { apply send_header_live; [exact Hv | reflexivity]. }
    rewrite emit_emit, super_end_headers_live by exact Hv.
    cbn. rewrite <- !app_assoc. reflexivity.
  - erewrite run_bind; cycle 1. { reflexivity. }
    rewrite super_end_headers_live by exact Hv.
    cbn. rewrite <- !app_assoc. reflexivity.
Qed.

(** *** The methods on a live handler *)

Section Methods.
Variable E : Env.
Variable db : mimetypes.types_map.

Lemma send_error_live code message short long self :
  live self ->
  responses code = Some (short, long) ->
  (200 <=? code) && negb ((code =? 204) || (code =? 205) || (code =? 304))
  = true ->
  send_error E end_headers code (Some message) None self
  = (tt, after_error E code message long self).
Proof.
  intros Hv Hr Hc. unfold send_error. rewrite Hr, Hc. cbn [default].
  erewrite run_bind; cycle 1. { apply send_response_live, Hv. }
  erewrite run_bind; cycle 1. { apply send_header_close, Hv. }
  erewrite run_bind; cycle 1.
  { erewrite run_bind; cycle 1.
    { apply send_header_live; [exact Hv | reflexivity]. }
    apply send_header_live; [exact Hv | reflexivity]. }
  erewrite run_bind; cycle 1. { apply end_headers_live, Hv. }
  erewrite run_bind; cycle 1. { reflexivity. }
  unfold after_error, page_chunks, error_page, when, modify, pass.
  cbn [command finish emit set_close_connection].
  destruct (negb (command self =? "HEAD")%string && _);
    unfold mret, M_ret; same_state.
Qed.

Lemma do_OPTIONS_live self :
  live self ->
  do_OPTIONS E self = (tt, finish (emit (response_lines E 200 "OK") self)).
Proof.
  intros Hv. unfold do_OPTIONS.
  erewrite run_bind; cycle 1.
  { eapply send_response_phrase; [exact Hv | reflexivity]. }
  apply end_headers_live, Hv.
Qed.

Lemma send_head_file_slash fp self :
  live self -> endswith fp "/" = true ->
  send_head_file E db end_headers fp self
  = (None, after_error E 404 "File not found"
             "Nothing matches the given URI" self).
Proof.
  intros Hv Hs. unfold send_head_file. rewrite Hs.
  erewrite run_bind; cycle 1.
  { eapply send_error_live; [exact Hv | reflexivity | reflexivity]. }
  reflexivity.
Qed.

Lemma send_head_file_missing fp self :
  live self -> open_rb E fp = None ->
  send_head_file E db end_headers fp self
  = (None, after_error E 404 "File not found"
             "Nothing matches the given URI" self).
Proof.
  intros Hv Ho. unfold send_head_file. rewrite Ho.
  destruct (endswith fp "/").
  - erewrite run_bind; cycle 1.
    { eapply send_error_live; [exact Hv | reflexivity | reflexivity]. }
    reflexivity.
  - erewrite run_bind; cycle 1.
    { eapply send_error_live; [exact Hv | reflexivity | reflexivity]. }
    reflexivity.
Qed.

Lemma send_head_file_not_modified fp f self :
  live self -> endswith fp "/" = false -> open_rb E fp = Some f ->
  not_modified_since E (headers self) f = true ->
  send_head_file E db end_headers fp self
  = (None, finish (emit (response_lines E 304 "Not Modified") self)).
Proof.
  intros Hv Hs Ho Hm. unfold send_head_file. rewrite Hs, Ho.
  erewrite run_bind; cycle 1. { reflexivity. }
  rewrite Hm.
  erewrite run_bind; cycle 1.
  { eapply send_response_phrase; [exact Hv | reflexivity]. }
  erewrite run_bind; cycle 1. { apply end_headers_live, Hv. }
  reflexivity.
Qed.

Lemma send_head_file_found fp f self :
  live self -> endswith fp "/" = false -> open_rb E fp = Some f ->
  not_modified_since E (headers self) f = false ->
  send_head_file E db end_headers fp self
  = (Some (f_content f),
     finish (emit (file_lines E (guess_type db fp) f) self)).
Proof.
  intros Hv Hs Ho Hm. unfold send_head_file. rewrite Hs, Ho.
  erewrite run_bind; cycle 1. { reflexivity. }
  rewrite Hm.
  erewrite run_bind; cycle 1.
  { eapply send_response_phrase; [exact Hv | reflexivity]. }
  erewrite run_bind; cycle 1.
  { apply send_header_live; [exact Hv | reflexivity]. }
  erewrite run_bind; cycle 1.
  { apply send_header_live; [exact Hv | reflexivity]. }
  erewrite run_bind; cycle 1.
  { apply send_header_live; [exact Hv | reflexivity]. }
  erewrite run_bind; cycle 1. { apply end_headers_live, Hv. }
  rewrite !emit_emit. reflexivity.
Qed.

Lemma list_directory_denied dir self :
  live self -> listing E dir (path self) = None ->
  list_directory E end_headers dir self
  = (None, after_error E 404 "No permission to list directory"
             "Nothing matches the given URI" self).
Proof.
  intros Hv Hl. unfold list_directory.
  erewrite run_bind; cycle 1. { reflexivity. }
  rewrite Hl.
  erewrite run_bind; cycle 1.
  { eapply send_error_live; [exact Hv | reflexivity | reflexivity]. }
  reflexivity.
Qed.

Lemma list_directory_page dir encoded self :
  live self -> listing E dir (path self) = Some encoded ->
  list_directory E end_headers dir self
  = (Some encoded, finish (emit (listing_lines E encoded) self)).
Proof.
  intros Hv Hl. unfold list_directory.
  erewrite run_bind; cycle 1. { reflexivity. }
  rewrite Hl.
  erewrite run_bind; cycle 1.
  { eapply send_response_phrase; [exact Hv | reflexivity]. }
  erewrite run_bind; cycle 1.
  { apply send_header_live; [exact Hv | reflexivity]. }
  erewrite run_bind; cycle 1.
  { apply send_header_live; [exact Hv | reflexivity]. }
  erewrite run_bind; cycle 1. { apply end_headers_live, Hv. }
  rewrite !emit_emit. reflexivity.
Qed.

Lemma send_head_redirect self :
  live self ->
  isdir E (translate_path E (path self)) = true ->
  endswith (urlsplit_path E (path self)) "/" = false ->
  send_head E db end_headers self
  = (None, finish (emit (redirect_lines E (path self)) self)).
Proof.
  intros Hv Hd Hs. unfold send_head.
  erewrite run_bind; cycle 1. { reflexivity. }
  rewrite Hd, Hs. cbn [negb].
  erewrite run_bind; cycle 1.
  { eapply send_response_phrase; [exact Hv | reflexivity]. }
  erewrite run_bind; cycle 1.
  { apply send_header_live; [exact Hv | reflexivity]. }
  erewrite run_bind; cycle 1.
  { apply send_header_live; [exact Hv | reflexivity]. }
  erewrite run_bind; cycle 1. { apply end_headers_live, Hv. }
  rewrite !emit_emit. reflexivity.
Qed.

Lemma send_head_regular self :
  isdir E (translate_path E (path self)) = false ->
  send_head E db end_headers self
  = send_head_file E db end_headers (translate_path E (path self)) self.
Proof.
  intros Hd. unfold send_head.
  erewrite run_bind; cycle 1. { reflexivity. }
  rewrite Hd. reflexivity.
Qed.

End Methods.

(** *** The shape of every reply *)

Section Shape.
Variable E : Env.
Variable db : mimetypes.types_map.

Lemma page_chunks_body cmd page : forallb is_body (page_chunks cmd page) = true.
Proof. unfold page_chunks. destruct (_ && _); reflexivity. Qed.

Lemma content_chunks_body s : forallb is_body (content_chunks s) = true.
Proof. unfold content_chunks. destruct (negb _); reflexivity. Qed.

Lemma replied_error code message explain self :
  replied E self (after_error E code message explain self).
Proof.
  exists code, message, (error_tail E code message explain),
    (page_chunks (command self) (error_page E code message explain)).
  split; [same_state |].
  split; [reflexivity |]. split; [apply page_chunks_body |].
  split; reflexivity.
Qed.

Lemma replied_finish code message tl self :
  forallb base_line tl = true ->
  replied E self (finish (emit (response_lines E code message ++ tl) self)).
Proof.
  intros Htl. exists code, message, tl, [].
  split; [same_state |]. split; [exact Htl |].
  split; [reflexivity |]. split; reflexivity.
Qed.

Lemma send_head_file_replied fp self :
  live self ->
  replied E self (snd (send_head_file E db end_headers fp self)).
Proof.
  intros Hv.
  destruct (endswith fp "/") eqn:Hs.
  { rewrite send_head_file_slash by assumption. apply replied_error. }
  destruct (open_rb E fp) as [f|] eqn:Ho.
  2: { rewrite send_head_file_missing by assumption. apply replied_error. }
  destruct (not_modified_since E (headers self) f) eqn:Hm.
  - rewrite (send_head_file_not_modified E db fp f) by assumption.
    apply (replied_finish 304 "Not Modified" []). reflexivity.
  - rewrite (send_head_file_found E db fp f) by assumption.
    apply (replied_finish 200 "OK" (file_tail E (guess_type db fp) f)).
    reflexivity.
Qed.

Lemma send_head_replied self :
  live self -> replied E self (snd (send_head E db end_headers self)).
Proof.
  intros Hv.
  destruct (isdir E (translate_path E (path self))) eqn:Hd.
  2: { rewrite send_head_regular by assumption.
       apply send_head_file_replied, Hv. }
  destruct (endswith (urlsplit_path E (path self)) "/") eqn:Hs.
  2: { rewrite send_head_redirect by assumption.
       apply (replied_finish 301 "Moved Permanently"
                (redirect_tail E (path self))). reflexivity. }
  unfold send_head. erewrite run_bind; cycle 1. { reflexivity. }
  rewrite Hd, Hs. cbn [negb].
  destruct (isfile E _); [apply send_head_file_replied, Hv |].
  destruct (isfile E _); [apply send_head_file_replied, Hv |].
  destruct (listing E (translate_path E (path self)) (path self))
    as [encoded|] eqn:Hl.
  - rewrite (list_directory_page E _ encoded) by assumption.
    apply (replied_finish 200 "OK" (listing_tail E encoded)). reflexivity.
  - rewrite list_directory_denied by assumption. apply replied_error.
Qed.

Lemma replied_write self st cs :
  replied E self st -> forallb is_body cs = true ->
  replied E self (write_all cs st).
Proof.
  intros (code & message & hs & bs & Hw & Hhs & Hbs & Hp & Hc) Hcs.
  exists code, message, hs, (bs ++ cs)%list.
  cbn [wfile write_all path command].
  rewrite Hw, <- app_assoc, forallb_app, Hbs, Hcs. auto.
Qed.

Lemma copyfile_write source st :
  copyfile source st = (tt, write_all (content_chunks source) st).
Proof.
  unfold copyfile, content_chunks, when, modify, pass, mret, M_ret.
  destruct (negb _); [reflexivity |].
  destruct st; unfold write_all; cbn. rewrite app_nil_r. reflexivity.
Qed.

Lemma do_GET_replied self :
  live self -> replied E self (snd (do_GET E db end_headers self)).
Proof.
  intros Hv. pose proof (send_head_replied self Hv) as H.
  unfold do_GET, mbind, M_bind.
  destruct (send_head E db end_headers self) as [[source|] st]; cbn [snd] in *.
  - rewrite copyfile_write. apply replied_write;
      [exact H | apply content_chunks_body].
  - exact H.
Qed.

Lemma do_HEAD_replied self :
  live self -> replied E self (snd (do_HEAD E db end_headers self)).
Proof.
  intros Hv. pose proof (send_head_replied self Hv) as H.
  unfold do_HEAD, mbind, M_bind.
  destruct (send_head E db end_headers self) as [f st]. exact H.
Qed.

Lemma getattr_command cmd :
  getattr E db ("do_" ++ cmd)
  = if String.eqb cmd "OPTIONS" then Some (do_OPTIONS E)
    else if String.eqb cmd "GET" then Some (do_GET E db end_headers)
    else if String.eqb cmd "HEAD" then Some (do_HEAD E db end_headers)
    else None.
Proof. reflexivity. Qed.

Lemma handle_one_request_replied self :
  live self ->
  replied E self (snd (handle_one_request E end_headers (getattr E db) self)).
Proof.
  intros Hv. unfold handle_one_request.
  erewrite run_bind; cycle 1. { reflexivity. }
  rewrite getattr_command.
  destruct (String.eqb (command self) "OPTIONS").
  { rewrite do_OPTIONS_live by exact Hv.
    rewrite <- (app_nil_r (response_lines E 200 "OK")).
    apply replied_finish. reflexivity. }
  destruct (String.eqb (command self) "GET"); [apply do_GET_replied, Hv |].
  destruct (String.eqb (command self) "HEAD"); [apply do_HEAD_replied, Hv |].
  erewrite send_error_live; [| exact Hv | reflexivity | reflexivity].
  apply replied_error.
Qed.

Lemma live_new_handler r :
  req_version r <> "HTTP/0.9" -> live (new_handler r).
Proof. intros H. apply String.eqb_neq. exact H. Qed.

Lemma respond_shaped r :
  req_version r <> "HTTP/0.9" -> shaped E r (respond E db r).
Proof.
  intros Hv. apply live_new_handler in Hv.
  destruct (handle_one_request_replied (new_handler r) Hv)
    as (code & message & hs & bs & Hw & Hhs & Hbs & _).
  exists code, message, hs, bs. unfold respond. rewrite Hw. auto.
Qed.

End Shape.

(** *** Reading a shaped response *)

Lemma head_lines_bodies bs : forallb is_body bs = true -> head_lines bs = [].
Proof.
  induction bs as [|[ls|d] bs IH]; cbn; [reflexivity | discriminate | exact IH].
Qed.

Lemma shaped_head_lines E r w :
  shaped E r w ->
  exists code message hs,
    head_lines w
    = (response_lines E code message ++ hs ++ trailer (req_path r))%list
    /\ forallb base_line hs = true.
Proof.
  intros (code & message & hs & bs & -> & Hhs & Hbs).
  exists code, message, hs. split; [| exact Hhs].
  cbn [head_lines flat_map]. fold (head_lines bs).
  rewrite (head_lines_bodies bs Hbs). apply app_nil_r.
Qed.

Lemma shaped_trailer E r w l :
  shaped E r w -> In l (trailer (req_path r)) -> In l (head_lines w).
Proof.
  intros Hw Hl. destruct (shaped_head_lines E r w Hw)
    as (code & message & hs & -> & _).
  apply in_or_app; right. apply in_or_app; right. exact Hl.
Qed.

Lemma shaped_in E r w k v :
  shaped E r w -> has_header k v w ->
  k = "Server" \/ k = "Date" \/ base_line (Header k v) = true
  \/ In (Header k v) (trailer (req_path r)).
Proof.
  intros Hw Hl. unfold has_header in Hl.
  destruct (shaped_head_lines E r w Hw) as (code & message & hs & Heq & Hhs).
  rewrite Heq in Hl.
  apply in_app_or in Hl as [Hl | Hl].
  { cbn in Hl. destruct Hl as [Hl | [Hl | [Hl | []]]];
      [discriminate | left | right; left]; congruence. }
  apply in_app_or in Hl as [Hl | Hl].
  - right; right; left.
    rewrite forallb_forall in Hhs. apply Hhs, Hl.
  - right; right; right. exact Hl.
Qed.

Lemma shaped_status E r w : shaped E r w -> exists code, status w = Some code.
Proof.
  intros (code & message & hs & bs & -> & _). exists code. reflexivity.
Qed.

Lemma shaped_cors E r w : shaped E r w -> cors_present w.
Proof.
  intros Hw k v Hk. split.
  - apply (shaped_trailer E r w _ Hw). unfold trailer.
    apply in_or_app; left. exact Hk.
  - intros v' Hv'. apply (shaped_in E r w k v' Hw) in Hv'.
    cbn in Hk. unfold trailer, cors_headers, forced in Hv'.
    destruct (endswith (req_path r) ".js");
      destruct Hk as [Hk | [Hk | [Hk | []]]];
      injection Hk as <- <-;
      destruct Hv' as [Hv' | [Hv' | [Hv' | Hv']]];
      try discriminate Hv';
      cbn in Hv'; intuition congruence.
Qed.

Lemma shaped_forced E r w :
  shaped E r w ->
  has_header "Content-Type" "application/javascript" w
  <-> endswith (req_path r) ".js" = true.
Proof.
  intros Hw. split.
  - intros H. apply (shaped_in E r w _ _ Hw) in H.
    unfold trailer, cors_headers, forced in H.
    destruct (endswith (req_path r) ".js"); [reflexivity |].
    destruct H as [H | [H | [H | H]]]; try discriminate H.
    cbn in H. intuition congruence.
  - intros H. apply (shaped_trailer E r w _ Hw).
    unfold trailer, forced. rewrite H. cbn. auto.
Qed.

(** *** The run of the script *)

Section Run.
Variable E : Env.
Variable db0 : mimetypes.types_map.

Lemma serve_forever_run db events st :
  serve_forever E db events st
  = (if forallb is_connection events then Waiting
     else Raise KeyboardInterrupt,
     {| stdout := stdout st; socket := socket st;
        sent := sent st ++ map (respond E db) (served events) |}).
Proof.
  revert st. induction events as [|[r|] rest IH]; intros st.
  - cbn. rewrite app_nil_r. destruct st; reflexivity.
  - cbn [serve_forever forallb is_connection served map andb].
    rewrite IH. cbn [stdout socket sent]. rewrite <- app_assoc. reflexivity.
  - cbn. rewrite app_nil_r. destruct st; reflexivity.
Qed.

Lemma main_run events :
  main E db0 true events start
  = if forallb is_connection events
    then (Waiting,
          {| stdout := [ "Starting server at http://localhost:8000";
                         "Serving files from: " ++ getcwd E ];
             socket := Some Listening;
             sent := map (respond E (register_types db0)) (served events) |})
    else (Return tt,
          {| stdout := [ "Starting server at http://localhost:8000";
                         "Serving files from: " ++ getcwd E;
                         nl ++ "Server stopped." ];
             socket := Some Closed;
             sent := map (respond E (register_types db0)) (served events) |}).
Proof.
  unfold main, with_server, try_except, mbind, P_bind, print, TCPServer,
    server_close, start.
  cbn [stdout socket sent app]. rewrite serve_forever_run.
  destruct (forallb is_connection events); reflexivity.
Qed.

Lemma main_bind_failure events :
  main E db0 false events start
  = (Raise OSError,
     {| stdout := [ "Starting server at http://localhost:8000";
                    "Serving files from: " ++ getcwd E ];
        socket := Some Closed; sent := [] |}).
Proof. reflexivity. Qed.

Lemma served_connection r events :
  In r (served events) -> In (Connection r) events.
Proof.
  induction events as [|[r'|] rest IH]; cbn; [tauto | | tauto].
  intros [-> | H]; [left; reflexivity | right; apply IH, H].
Qed.

Lemma sent_main bind_ok events w :
  In w (sent (snd (main E db0 bind_ok events start))) ->
  exists r, In (Connection r) events /\ w = respond E (register_types db0) r.
Proof.
  destruct bind_ok.
  - rewrite main_run.
    destruct (forallb is_connection events); cbn [snd sent];
      intros H; apply in_map_iff in H as (r & <- & Hr);
      exists r; split; auto using served_connection.
  - rewrite main_bind_failure. intros [].
Qed.

End Run.

(** ** The claims *)

(** C1. Every response that the server sends to an HTTP/1.x request has
    the three CORS headers, each once and with its value, because its head
    ends with the lines that the override of [end_headers] adds. *)
Theorem cors_headers_on_every_response E db0 bind_ok events w :
  (forall r, In (Connection r) events -> req_version r <> "HTTP/0.9") ->
  In w (sent (snd (main E db0 bind_ok events start))) ->
  cors_present w
  /\ exists r pre bs,
       In (Connection r) events
       /\ w = (Head (pre ++ trailer (req_path r)) :: bs)%list.
Proof.
  intros Hv Hw. apply sent_main in Hw as (r & Hr & ->).
  pose proof (respond_shaped E (register_types db0) r (Hv r Hr)) as Hs.
  split; [exact (shaped_cors E r _ Hs) |].
  destruct Hs as (code & message & hs & bs & Heq & _).
  exists r, (response_lines E code message ++ hs)%list, bs.
  split; [exact Hr |]. rewrite Heq, <- app_assoc. reflexivity.
Qed.

Lemma cors_headers_on_every_response_witness :
  cors_present (respond example_env example_db (GET "/missing.txt")).
Proof.
  refine (proj1 (cors_headers_on_every_response example_env
                   {[ ".html" := "text/html" ]} true
                   [Connection (GET "/missing.txt"); SIGINT] _ _ _)).
  - intros r [H | [H | []]]; [injection H as <-; discriminate | discriminate].
  - left. reflexivity.
Defined.

(** *** Replies that read no file *)

Lemma respond_OPTIONS E db r :
  req_command r = "OPTIONS" -> req_version r <> "HTTP/0.9" ->
  respond E db r
  = [Head (response_lines E 200 "OK" ++ trailer (req_path r))].
Proof.
  intros Hc Hv. apply live_new_handler in Hv.
  unfold respond, handle_one_request.
  erewrite run_bind; cycle 1. { reflexivity. }
  rewrite getattr_command. cbn [command new_handler]. rewrite Hc.
  cbn [String.eqb Ascii.eqb Bool.eqb andb].
  rewrite do_OPTIONS_live by exact Hv. reflexivity.
Qed.

Lemma respond_unsupported E db r :
  String.eqb (req_command r) "OPTIONS" = false ->
  String.eqb (req_command r) "GET" = false ->
  String.eqb (req_command r) "HEAD" = false ->
  req_version r <> "HTTP/0.9" ->
  respond E db r
  = error_reply E r 501
      ("Unsupported method (" ++ repr E (req_command r) ++ ")")
      "Server does not support this operation".
Proof.
  intros H1 H2 H3 Hv. apply live_new_handler in Hv.
  unfold respond, handle_one_request.
  erewrite run_bind; cycle 1. { reflexivity. }
  rewrite getattr_command. cbn [command new_handler]. rewrite H1, H2, H3.
  erewrite send_error_live; [| exact Hv | reflexivity | reflexivity].
  reflexivity.
Qed.

Lemma response_lines_same E E' code message :
  sys_version E' = sys_version E -> time_now E' = time_now E ->
  response_lines E' code message = response_lines E code message.
Proof.
  intros H1 H2. unfold response_lines, version_string. rewrite H1, H2.
  reflexivity.
Qed.

Lemma append_empty_r (s : string) : s ++ "" = s.
Proof.
  induction s as [|c s IH]; [reflexivity |].
  change (String c s ++ "") with (String c (s ++ "")). f_equal. exact IH.
Qed.


(** C3. An OPTIONS request, whatever its target, is answered with status
    200, the CORS headers and no body; the answer is the same on any host
    with the same software and clock, so the file system and the path
    resolution are not consulted. *)
Theorem options_preflight E db r :
  req_command r = "OPTIONS" -> req_version r <> "HTTP/0.9" ->
  status (respond E db r) = Some 200
  /\ body (respond E db r) = ""
  /\ cors_present (respond E db r)
  /\ forall E' db',
       sys_version E' = sys_version E -> time_now E' = time_now E ->
       respond E' db' r = respond E db r.
Proof.
  intros Hc Hv. split; [| split; [| split]].
  - rewrite respond_OPTIONS by assumption. reflexivity.
  - rewrite respond_OPTIONS by assumption. reflexivity.
  - apply (shaped_cors E r), respond_shaped, Hv.
  - intros E' db' H1 H2. rewrite !respond_OPTIONS by assumption.
    rewrite (response_lines_same E E') by assumption. reflexivity.
Qed.

Lemma options_preflight_witness :
  status (respond example_env example_db
            (request_of "OPTIONS" "/anything" [])) = Some 200
  /\ body (respond example_env example_db
             (request_of "OPTIONS" "/anything" [])) = "".
Proof.
  pose proof (options_preflight example_env example_db
                (request_of "OPTIONS" "/anything" []) eq_refl) as H.
  split; apply H; discriminate.
Defined.

(** *** The query string *)

Lemma split1_head_app c p q :
  split1_head c (p ++ String c q) = split1_head c p.
Proof.
  induction p as [|d p IH].
  - change ("" ++ String c q) with (String c q). cbn.
    rewrite Ascii.eqb_refl. reflexivity.
  - change (String d p ++ String c q) with (String d (p ++ String c q)).
    cbn. destruct (Ascii.eqb c d); [reflexivity | f_equal; exact IH].
Qed.

Lemma translate_path_query E p q :
  translate_path E (p ++ "?" ++ q) = translate_path E p.
Proof.
  unfold translate_path. change ("?" ++ q) with (String "?" q).
  rewrite (split1_head_app "?" p q). reflexivity.
Qed.

(** C9. The forced line [Content-Type: application/javascript] is in the
    response exactly when the raw request target ends in ".js".  The
    target keeps its query string, which the file lookup drops: a query
    after the name of a JavaScript file leaves the file served and takes
    the forced line away, and an OPTIONS request whose target ends in
    ".js" gets the line although it has no body. *)
Theorem js_override_tests_raw_target E db r :
  req_version r <> "HTTP/0.9" ->
  (has_header "Content-Type" "application/javascript" (respond E db r)
   <-> endswith (req_path r) ".js" = true)
  /\ (forall q, translate_path E (req_path r ++ "?" ++ q)
                = translate_path E (req_path r))
  /\ endswith ("/app.js" ++ "?" ++ "v=1") ".js" = false
  /\ (req_command r = "OPTIONS" -> endswith (req_path r) ".js" = true ->
      has_header "Content-Type" "application/javascript" (respond E db r)
      /\ body (respond E db r) = "").
Proof.
  intros Hv.
  pose proof (shaped_forced E r _ (respond_shaped E db r Hv)) as Hf.
  split; [exact Hf |]. split; [intros q; apply translate_path_query |].
  split; [reflexivity |].
  intros Hc Hjs. split; [apply Hf, Hjs |].
  rewrite respond_OPTIONS by assumption. reflexivity.
Qed.

Lemma js_override_tests_raw_target_witness :
  ~ has_header "Content-Type" "application/javascript"
      (respond example_env example_db (GET "/app.js?v=1"))
  /\ has_header "Content-type" "application/javascript"
       (respond example_env example_db (GET "/app.js?v=1"))
  /\ has_header "Content-Type" "application/javascript"
       (respond example_env example_db (request_of "OPTIONS" "/x.js" [])).
Proof.
  assert (Hv : "HTTP/1.1" <> "HTTP/0.9") by discriminate.
  destruct (js_override_tests_raw_target example_env example_db
              (GET "/app.js?v=1") Hv) as (Hget & _).
  destruct (js_override_tests_raw_target example_env example_db
              (request_of "OPTIONS" "/x.js" []) Hv) as (Hopt & _).
  split; [| split].
  - intros H. apply Hget in H. discriminate H.
  - vm_compute. tauto.
  - apply Hopt. reflexivity.
Defined.

(** *** Replies of GET *)

Section Get.
Variable E : Env.
Variable db : mimetypes.types_map.
Variable r : request.
Hypothesis Hget : req_command r = "GET".
Hypothesis Hversion : req_version r <> "HTTP/0.9".

Lemma respond_GET :
  respond E db r = wfile (snd (do_GET E db end_headers (new_handler r))).
Proof.
  unfold respond, handle_one_request.
  erewrite run_bind; cycle 1. { reflexivity. }
  rewrite getattr_command. cbn [command new_handler]. rewrite Hget.
  reflexivity.
Qed.

Lemma respond_GET_missing :
  isdir E (translate_path E (req_path r)) = false ->
  open_rb E (translate_path E (req_path r)) = None ->
  respond E db r
  = error_reply E r 404 "File not found" "Nothing matches the given URI".
Proof.
  intros Hd Ho. rewrite respond_GET. unfold do_GET.
  erewrite run_bind; cycle 1.
  { rewrite send_head_regular by exact Hd.
    apply send_head_file_missing;
      [apply live_new_handler, Hversion | exact Ho]. }
  reflexivity.
Qed.

Lemma respond_GET_slash :
  isdir E (translate_path E (req_path r)) = false ->
  endswith (translate_path E (req_path r)) "/" = true ->
  respond E db r
  = error_reply E r 404 "File not found" "Nothing matches the given URI".
Proof.
  intros Hd Hs. rewrite respond_GET. unfold do_GET.
  erewrite run_bind; cycle 1.
  { rewrite send_head_regular by exact Hd.
    apply send_head_file_slash;
      [apply live_new_handler, Hversion | exact Hs]. }
  reflexivity.
Qed.

Lemma respond_GET_not_modified f :
  isdir E (translate_path E (req_path r)) = false ->
  endswith (translate_path E (req_path r)) "/" = false ->
  open_rb E (translate_path E (req_path r)) = Some f ->
  not_modified_since E (req_headers r) f = true ->
  respond E db r
  = [Head (response_lines E 304 "Not Modified" ++ trailer (req_path r))].
Proof.
  intros Hd Hs Ho Hm. rewrite respond_GET. unfold do_GET.
  erewrite run_bind; cycle 1.
  { rewrite send_head_regular by exact Hd.
    apply (send_head_file_not_modified E db _ f);
      [apply live_new_handler, Hversion | exact Hs | exact Ho | exact Hm]. }
  reflexivity.
Qed.

Lemma respond_GET_found f :
  isdir E (translate_path E (req_path r)) = false ->
  endswith (translate_path E (req_path r)) "/" = false ->
  open_rb E (translate_path E (req_path r)) = Some f ->
  not_modified_since E (req_headers r) f = false ->
  respond E db r
  = Head (file_lines E (guess_type db (translate_path E (req_path r))) f
          ++ trailer (req_path r))
    :: content_chunks (f_content f).
Proof.
  intros Hd Hs Ho Hm. rewrite respond_GET. unfold do_GET.
  erewrite run_bind; cycle 1.
  { rewrite send_head_regular by exact Hd.
    apply (send_head_file_found E db _ f);
      [apply live_new_handler, Hversion | exact Hs | exact Ho | exact Hm]. }
  cbv beta iota. rewrite copyfile_write. reflexivity.
Qed.

End Get.




(** C6, as the code has it.  The handler class has no [do_POST]: a POST
    request is answered 501 "Unsupported method", with the CORS headers,
    and the answer is the same whatever the files are.  Files are served
    for GET (and HEAD) only. *)
Theorem post_not_implemented E db r :
  req_command r = "POST" -> req_version r <> "HTTP/0.9" ->
  respond E db r
  = error_reply E r 501 ("Unsupported method (" ++ repr E "POST" ++ ")")
      "Server does not support this operation"
  /\ status (respond E db r) = Some 501
  /\ cors_present (respond E db r)
  /\ forall E' db', same_software E E' -> respond E' db' r = respond E db r.
Proof.
  intros Hc Hv.
  assert (Hr : forall E0 db0, respond E0 db0 r
            = error_reply E0 r 501
                ("Unsupported method (" ++ repr E0 "POST" ++ ")")
                "Server does not support this operation").
  { intros E0 db0. rewrite respond_unsupported;
      rewrite ?Hc; try reflexivity; exact Hv. }
  split; [apply Hr |]. split; [rewrite Hr; reflexivity |].
  split; [apply (shaped_cors E r), respond_shaped, Hv |].
  intros E' db' (H1 & H2 & H3 & H4). rewrite !Hr.
  unfold error_reply, error_lines, error_tail, error_page.
  rewrite (response_lines_same E E') by assumption.
  rewrite H3, H4. reflexivity.
Qed.

Lemma post_not_implemented_witness :
  status (respond example_env example_db (request_of "POST" "/index.html" []))
  = Some 501.
Proof.
  refine (proj1 (proj2 (post_not_implemented example_env example_db
                          (request_of "POST" "/index.html" []) _ _)));
    first [reflexivity | discriminate].
Defined.

(** The claim C6 as the spec words it fails: a POST for the path of an
    existing file is not answered as the GET for that path is. *)
Lemma post_is_not_served_as_get :
  ~ (forall E db p hs,
       respond E db (request_of "POST" p hs)
       = respond E db (request_of "GET" p hs))
  /\ status (respond example_env example_db
               (request_of "POST" "/index.html" [])) = Some 501
  /\ status (respond example_env example_db
               (request_of "GET" "/index.html" [])) = Some 200.
Proof.
  split; [| split; reflexivity].
  intros H. specialize (H example_env example_db "/index.html" []).
  apply (f_equal status) in H. vm_compute in H. discriminate H.
Qed.

(** *** Extensions and trailing slashes *)

Lemma endswith_slash_cons a s :
  endswith (String a s) "/"
  = match s with "" => Ascii.eqb a "/" | _ => endswith s "/" end.
Proof.
  unfold endswith. destruct s as [|b s].
  - cbn. destruct (Ascii.eqb a "/"); reflexivity.
  - cbn [String.length Nat.leb Nat.sub andb].
    rewrite Nat.sub_0_r. reflexivity.
Qed.




(** *** The MIME table after the registration *)

Lemma register_types_lookup (db0 : gmap string string) ext :
  register_types db0 !! ext
  = if String.eqb ext ".css" then Some "text/css"
    else if String.eqb ext ".js" then Some "application/javascript"
    else db0 !! ext.
Proof.
  unfold register_types, mimetypes.add_type.
  destruct (String.eqb_spec ext ".css") as [-> | H1].
  { apply lookup_insert_eq. }
  rewrite lookup_insert_ne by congruence.
  destruct (String.eqb_spec ext ".js") as [-> | H2].
  { apply lookup_insert_eq. }
  apply lookup_insert_ne. congruence.
Qed.



Lemma mimetypes_guess_js (db0 : gmap string string) fp base :
  posixpath.splitext fp = (base, ".js") ->
  mimetypes.guess_type (register_types db0) fp
  = (Some "application/javascript", None).
Proof.
  intros H. unfold mimetypes.guess_type. rewrite H.
  change (mimetypes.guess_suffix 2 base ".js") with (base, ".js").
  cbv beta iota zeta.
  change (dict_get mimetypes.encodings_map ".js") with (@None string).
  cbv beta iota zeta.
  change (lower ".js") with ".js".
  rewrite register_types_lookup. reflexivity.
Qed.

Lemma guess_type_js (db0 : gmap string string) fp base :
  posixpath.splitext fp = (base, ".js") ->
  guess_type (register_types db0) fp = "application/javascript".
Proof.
  intros H. unfold guess_type. rewrite H, (mimetypes_guess_js db0 fp base H).
  reflexivity.
Qed.




(** *** The interrupt *)

Lemma served_before_interrupt pre post :
  forallb is_connection pre = true ->
  served (pre ++ SIGINT :: post) = served pre
  /\ forallb is_connection (pre ++ SIGINT :: post) = false.
Proof.
  induction pre as [|[r|] pre IH]; cbn; [auto | | discriminate].
  intros H. destruct (IH H) as [-> ->]. auto.
Qed.

(** C8. When the interrupt arrives while the server serves, the
    connections that came before it have been answered and none after it
    is; the shutdown notice is the last line printed, the listening socket
    is closed and the script ends normally, so the exit code is 0. *)
Theorem interrupt_shuts_down E db0 pre post :
  forallb is_connection pre = true ->
  exit_code (fst (main E db0 true (pre ++ SIGINT :: post) start)) = Some 0
  /\ stdout (snd (main E db0 true (pre ++ SIGINT :: post) start))
     = [ "Starting server at http://localhost:8000";
         "Serving files from: " ++ getcwd E;
         nl ++ "Server stopped." ]
  /\ socket (snd (main E db0 true (pre ++ SIGINT :: post) start))
     = Some Closed
  /\ sent (snd (main E db0 true (pre ++ SIGINT :: post) start))
     = map (respond E (register_types db0)) (served pre).
Proof.
  intros Hpre. rewrite main_run.
  destruct (served_before_interrupt pre post Hpre) as [-> ->].
  cbn. auto.
Qed.

Lemma interrupt_shuts_down_witness :
  exit_code (fst (main example_env {[ ".html" := "text/html" ]} true
                    [Connection (GET "/index.html"); SIGINT;
                     Connection (GET "/app.js")] start)) = Some 0
  /\ map status
       (sent (snd (main example_env {[ ".html" := "text/html" ]} true
                     [Connection (GET "/index.html"); SIGINT;
                      Connection (GET "/app.js")] start)))
     = [Some 200].
Proof.
  destruct (interrupt_shuts_down example_env {[ ".html" := "text/html" ]}
              [Connection (GET "/index.html")] [Connection (GET "/app.js")]
              eq_refl) as (Hexit & _ & _ & Hsent).
  split; [exact Hexit |]. cbn [app] in Hsent. rewrite Hsent. reflexivity.
Defined.

(** *** The two content-type lines *)

(** C10. For a target that ends in ".js" the forced line comes in
    addition to the line of the base handler: a 200 response for an
    existing file has the content type that the library guessed, then the
    CORS headers, then [Content-Type: application/javascript].  For a file
    with the extension ".js" the guessed type is the registered one, so
    the two lines carry the same value. *)
Theorem js_file_has_two_content_types E db r f :
  req_command r = "GET" -> req_version r <> "HTTP/0.9" ->
  endswith (req_path r) ".js" = true ->
  isdir E (translate_path E (req_path r)) = false ->
  open_rb E (translate_path E (req_path r)) = Some f ->
  status (respond E db r) = Some 200 ->
  respond E db r
  = Head (response_lines E 200 "OK"
          ++ [ Header "Content-type"
                 (guess_type db (translate_path E (req_path r)));
               Header "Content-Length" (str (st_size f));
               Header "Last-Modified" (formatdate E (st_mtime f)) ]
          ++ cors_headers
          ++ [ Header "Content-Type" "application/javascript"; Blank ])
    :: content_chunks (f_content f)
  /\ content_types (head_lines (respond E db r))
     = [ guess_type db (translate_path E (req_path r));
         "application/javascript" ]
  /\ (forall db0 base,
        db = register_types db0 ->
        posixpath.splitext (translate_path E (req_path r)) = (base, ".js") ->
        content_types (head_lines (respond E db r))
        = [ "application/javascript"; "application/javascript" ]).
Proof.
  intros Hc Hv Hjs Hd Ho H200.
  destruct (endswith (translate_path E (req_path r)) "/") eqn:Hs.
  { rewrite respond_GET_slash in H200 by assumption. discriminate H200. }
  destruct (not_modified_since E (req_headers r) f) eqn:Hm.
  { rewrite (respond_GET_not_modified E db r Hc Hv f) in H200 by assumption.
    discriminate H200. }
  clear H200. rewrite (respond_GET_found E db r Hc Hv f) by assumption.
  assert (Hct : content_types
                  (head_lines
                     (Head (file_lines E
                              (guess_type db (translate_path E (req_path r))) f
                            ++ trailer (req_path r))
                      :: content_chunks (f_content f)))
                = [ guess_type db (translate_path E (req_path r));
                    "application/javascript" ]).
  { cbn [head_lines flat_map]. fold (head_lines (content_chunks (f_content f))).
    rewrite (head_lines_bodies _ (content_chunks_body _)).
    unfold trailer, forced. rewrite Hjs. reflexivity. }
  split; [| split].
  - unfold file_lines, file_tail, trailer, forced. rewrite Hjs.
    rewrite <- !app_assoc. reflexivity.
  - exact Hct.
  - intros db0 base -> Hx. rewrite Hct, (guess_type_js db0 _ base Hx).
    reflexivity.
Qed.

Lemma js_file_has_two_content_types_witness :
  content_types (head_lines (respond example_env example_db (GET "/app.js")))
  = [ "application/javascript"; "application/javascript" ].
Proof.
  destruct (js_file_has_two_content_types example_env example_db
              (GET "/app.js")
              {| f_content := "export {};"; st_size := 10;
                 st_mtime := 1767225600 |})
    as (_ & _ & H);
    [reflexivity | discriminate | reflexivity | reflexivity | reflexivity
    | reflexivity |].
  apply (H {[ ".html" := "text/html" ]} "/srv/app"); reflexivity.
Defined.

(** The claim C2 as the spec words it fails: the target ends in ".js", the
    status is 200, and the response has the content type of the base
    handler, text/html, besides the forced one. *)
Lemma js_content_type_not_overridden :
  ~ (forall E db r,
       req_version r <> "HTTP/0.9" -> endswith (req_path r) ".js" = true ->
       status (respond E db r) = Some 200 ->
       forall v, In v (content_types (head_lines (respond E db r))) ->
                 v = "application/javascript")
  /\ content_types
       (head_lines (respond example_env example_db (GET "/index.html?.js")))
     = [ "text/html"; "application/javascript" ].
Proof.
  split; [| reflexivity].
  intros H.
  specialize (H example_env example_db (GET "/index.html?.js")).
  assert (Hv : "text/html" = "application/javascript").
  { apply H; [discriminate | reflexivity | reflexivity |].
    vm_compute. left. reflexivity. }
  discriminate Hv.
Qed.

(** ** Examples *)

(** The preflight reply as it goes over the wire. *)
Example wire_of_preflight :
  wire (respond example_env example_db (request_of "OPTIONS" "/anything" []))
  = "HTTP/1.0 200 OK" ++ crlf
    ++ "Server: SimpleHTTP/0.6 Python/3.11.2" ++ crlf
    ++ "Date: Tue, 03 Nov 2026 12:00:00 GMT" ++ crlf
    ++ "Access-Control-Allow-Origin: *" ++ crlf
    ++ "Access-Control-Allow-Methods: GET, POST, OPTIONS" ++ crlf
    ++ "Access-Control-Allow-Headers: Content-Type" ++ crlf
    ++ crlf.
Proof. reflexivity. Qed.

(** Scenario 1 of the spec. *)
Example get_index_html :
  respond example_env example_db (GET "/index.html")
  = [ Head [ Status "HTTP/1.0" 200 "OK";
             Header "Server" "SimpleHTTP/0.6 Python/3.11.2";
             Header "Date" "Tue, 03 Nov 2026 12:00:00 GMT";
             Header "Content-type" "text/html";
             Header "Content-Length" "13";
             Header "Last-Modified" "Thu, 01 Jan 2026 00:00:00 GMT";
             Header "Access-Control-Allow-Origin" "*";
             Header "Access-Control-Allow-Methods" "GET, POST, OPTIONS";
             Header "Access-Control-Allow-Headers" "Content-Type";
             Blank ];
      Body "<html></html>" ].
Proof. reflexivity. Qed.

(** The query string is dropped by the file lookup and kept by the test of
    [end_headers]. *)
Example translate_path_drops_query :
  translate_path example_env "/app.js?v=1" = "/srv/app.js"
  /\ translate_path example_env "/index.html?.js" = "/srv/index.html"
  /\ translate_path example_env "/a/../b/" = "/srv/b/"
  /\ translate_path example_env "/../../etc/passwd" = "/srv/etc/passwd".
Proof. repeat split; reflexivity. Qed.

Example splitext_examples :
  posixpath.splitext "/srv/app.js" = ("/srv/app", ".js")
  /\ posixpath.splitext "/srv/.js" = ("/srv/.js", "")
  /\ posixpath.splitext "/srv.d/x" = ("/srv.d/x", "")
  /\ posixpath.splitext "..a.b" = ("..a", ".b").
Proof. repeat split; reflexivity. Qed.

(** A HEAD request gets the head of the GET reply and no body. *)
Example head_request :
  body (respond example_env example_db (request_of "HEAD" "/index.html" []))
  = ""
  /\ head_lines
       (respond example_env example_db (request_of "HEAD" "/index.html" []))
     = head_lines (respond example_env example_db (GET "/index.html")).
Proof. split; reflexivity. Qed.

(** The second start on a busy port ends with the OSError of the bind. *)
Example bind_failure :
  exit_code (fst (main example_env ∅ false [] start)) = Some 1.
Proof. reflexivity. Qed.

(** A request without a version (HTTP/0.9) gets the file and no head at
    all: [send_response_only], [send_header] and [end_headers] skip it. *)
Example http09_reply_has_no_head :
  respond example_env example_db
    {| req_command := "GET"; req_path := "/index.html";
       req_version := "HTTP/0.9"; req_headers := [] |}
  = [ Body "<html></html>" ].
Proof. reflexivity. Qed.

(** ** The reply as a function of the request: proofs *)

Section Reply.
Variable E : Env.
Variable db : mimetypes.types_map.

Lemma wfile_finish_emit ls self :
  wfile (finish (emit ls self))
  = (wfile self ++ [Head (_headers_buffer self ++ ls ++ trailer (path self))])%list.
Proof. unfold finish, emit; cbn. rewrite <- app_assoc. reflexivity. Qed.

Lemma wfile_after_error code message explain self :
  wfile (after_error E code message explain self)
  = (wfile self
     ++ Head (_headers_buffer self ++ error_lines E code message explain
              ++ trailer (path self))
        :: page_chunks (command self) (error_page E code message explain))%list.
Proof.
  unfold after_error, write_all, finish, emit, set_close_connection; cbn.
  rewrite <- !app_assoc. reflexivity.
Qed.

Lemma send_head_file_classified fp self :
  live self ->
  fst (send_head_file E db end_headers fp self)
  = outcome_source (classify_file E (headers self) fp)
  /\ wfile (snd (send_head_file E db end_headers fp self))
     = (wfile self
        ++ Head (_headers_buffer self
                 ++ outcome_lines E db (path self)
                      (classify_file E (headers self) fp)
                 ++ trailer (path self))
           :: outcome_page E (command self)
                (classify_file E (headers self) fp))%list.
Proof.
  intros Hv. unfold classify_file.
  destruct (endswith fp "/") eqn:Hs.
  { rewrite send_head_file_slash by assumption.
    split; [reflexivity | apply wfile_after_error]. }
  destruct (open_rb E fp) as [f|] eqn:Ho.
  2: { rewrite send_head_file_missing by assumption.
       split; [reflexivity | apply wfile_after_error]. }
  destruct (not_modified_since E (headers self) f) eqn:Hm.
  - rewrite (send_head_file_not_modified E db fp f) by assumption.
    split; [reflexivity | apply wfile_finish_emit].
  - rewrite (send_head_file_found E db fp f) by assumption.
    split; [reflexivity | apply wfile_finish_emit].
Qed.

Lemma send_head_classified self :
  live self ->
  fst (send_head E db end_headers self)
  = outcome_source (classify E (path self) (headers self))
  /\ wfile (snd (send_head E db end_headers self))
     = (wfile self
        ++ Head (_headers_buffer self
                 ++ outcome_lines E db (path self)
                      (classify E (path self) (headers self))
                 ++ trailer (path self))
           :: outcome_page E (command self)
                (classify E (path self) (headers self)))%list.
Proof.
  intros Hv. unfold classify.
  destruct (isdir E (translate_path E (path self))) eqn:Hd.
  2: { rewrite send_head_regular by assumption.
       apply send_head_file_classified, Hv. }
  destruct (endswith (urlsplit_path E (path self)) "/") eqn:Hs; cbn [negb].
  2: { rewrite send_head_redirect by assumption.
       split; [reflexivity | apply wfile_finish_emit]. }
  unfold send_head. erewrite run_bind; cycle 1. { reflexivity. }
  rewrite Hd, Hs. cbn [negb].
  destruct (isfile E _); [apply send_head_file_classified, Hv |].
  destruct (isfile E _); [apply send_head_file_classified, Hv |].
  destruct (listing E (translate_path E (path self)) (path self))
    as [encoded|] eqn:Hl.
  - rewrite (list_directory_page E _ encoded) by assumption.
    split; [reflexivity | apply wfile_finish_emit].
  - rewrite list_directory_denied by assumption.
    split; [reflexivity | apply wfile_after_error].
Qed.

Lemma respond_reply r :
  req_version r <> "HTTP/0.9" -> respond E db r = reply E db r.
Proof.
  intros Hv. unfold reply.
  destruct (String.eqb (req_command r) "OPTIONS") eqn:Ho.
  { apply String.eqb_eq in Ho. apply respond_OPTIONS; assumption. }
  destruct (String.eqb (req_command r) "GET") eqn:Hg.
  { apply String.eqb_eq in Hg. rewrite respond_GET by assumption.
    destruct (send_head_classified (new_handler r) (live_new_handler r Hv))
      as [Hf Hw].
    unfold do_GET, mbind, M_bind.
    destruct (send_head E db end_headers (new_handler r)) as [f st].
    cbn [fst snd new_handler command path headers wfile _headers_buffer app]
      in Hf, Hw.
    rewrite <- Hf. rewrite Hg in Hw.
    destruct f as [source|].
    - rewrite copyfile_write. cbn [snd wfile write_all]. rewrite Hw.
      reflexivity.
    - cbn [snd]. unfold pass, mret, M_ret. cbn [snd]. rewrite Hw.
      rewrite app_nil_r. reflexivity. }
  destruct (String.eqb (req_command r) "HEAD") eqn:Hh.
  { apply String.eqb_eq in Hh.
    destruct (send_head_classified (new_handler r) (live_new_handler r Hv))
      as [_ Hw].
    unfold respond, handle_one_request.
    erewrite run_bind; cycle 1. { reflexivity. }
    rewrite getattr_command. cbn [command new_handler]. rewrite Hh.
    cbn [String.eqb Ascii.eqb Bool.eqb andb].
    unfold do_HEAD, mbind, M_bind.
    destruct (send_head E db end_headers (new_handler r)) as [f st].
    cbn [snd] in *. unfold pass, mret, M_ret. cbn [snd]. rewrite Hw.
    cbn [new_handler command path headers wfile _headers_buffer app].
    rewrite Hh. unfold outcome_page.
    destruct (classify E (req_path r) (req_headers r)); reflexivity. }
  apply respond_unsupported; assumption.
Qed.

End Reply.

(** *** Reading a reply *)

Lemma head_lines_reply ls bs :
  forallb is_body bs = true -> head_lines (Head ls :: bs) = ls.
Proof.
  intros H. cbn [head_lines flat_map]. fold (head_lines bs).
  rewrite (head_lines_bodies bs H). apply app_nil_r.
Qed.

Lemma outcome_page_body E cmd o : forallb is_body (outcome_page E cmd o) = true.
Proof. destruct o; try reflexivity. apply page_chunks_body. Qed.

Lemma source_chunks_body (src : option string) :
  forallb is_body
    (match src with Some s => content_chunks s | None => [] end) = true.
Proof. destruct src; [apply content_chunks_body | reflexivity]. Qed.

Lemma body_page_chunks cmd page :
  String.eqb cmd "HEAD" = false -> body (page_chunks cmd page) = page.
Proof.
  intros H. unfold page_chunks. rewrite H. cbn [negb andb].
  destruct (String.eqb_spec page "") as [-> | _]; cbn [negb body];
    [reflexivity | apply append_empty_r].
Qed.


(** X1. A HEAD request is answered with the head of the answer to the GET
    request for the same target and headers, line for line, and with no
    body. *)
Theorem head_is_get_without_body E db r :
  req_version r <> "HTTP/0.9" -> req_command r = "GET" ->
  head_lines (respond E db (with_command "HEAD" r))
  = head_lines (respond E db r)
  /\ status (respond E db (with_command "HEAD" r)) = status (respond E db r)
  /\ body (respond E db (with_command "HEAD" r)) = "".
Proof.
  intros Hv Hc. rewrite !respond_reply by exact Hv.
  unfold reply. cbn [with_command req_command req_path req_headers].
  rewrite Hc. cbn [String.eqb Ascii.eqb Bool.eqb andb].
  split; [| split; reflexivity].
  rewrite !head_lines_reply; [reflexivity | | reflexivity].
  rewrite forallb_app, outcome_page_body, source_chunks_body. reflexivity.
Qed.

Lemma head_is_get_without_body_witness :
  head_lines (respond example_env example_db
                (with_command "HEAD" (GET "/missing.txt")))
  = head_lines (respond example_env example_db (GET "/missing.txt"))
  /\ body (respond example_env example_db
             (with_command "HEAD" (GET "/missing.txt"))) = "".
Proof.
  destruct (head_is_get_without_body example_env example_db
              (GET "/missing.txt")) as (H1 & _ & H2);
    [discriminate | reflexivity |].
  split; assumption.
Defined.

(** X2. The methods are looked up by their exact name: a request whose
    method is not GET, HEAD or OPTIONS, letter for letter, is answered 501
    with the CORS headers and the error page, and the answer is the same
    whatever files the host has. *)
Theorem unsupported_method_501 E db r :
  req_version r <> "HTTP/0.9" ->
  req_command r <> "GET" -> req_command r <> "HEAD" ->
  req_command r <> "OPTIONS" ->
  status (respond E db r) = Some 501
  /\ cors_present (respond E db r)
  /\ body (respond E db r)
     = error_page E 501
         ("Unsupported method (" ++ repr E (req_command r) ++ ")")
         "Server does not support this operation"
  /\ forall E' db', same_software E E' -> respond E' db' r = respond E db r.
Proof.
  intros Hv Hg Hh Ho.
  apply String.eqb_neq in Hg, Hh, Ho.
  assert (Hr : forall E0 db0, respond E0 db0 r
            = error_reply E0 r 501
                ("Unsupported method (" ++ repr E0 (req_command r) ++ ")")
                "Server does not support this operation")
    by (intros; apply respond_unsupported; assumption).
  split; [rewrite Hr; reflexivity |].
  split; [apply (shaped_cors E r), respond_shaped, Hv |].
  split.
  - rewrite Hr. unfold error_reply. cbn [body].
    apply body_page_chunks, Hh.
  - intros E' db' (H1 & H2 & H3 & H4). rewrite !Hr.
    unfold error_reply, error_lines, error_tail, error_page.
    rewrite (response_lines_same E E') by assumption.
    rewrite H3, H4. reflexivity.
Qed.

Lemma unsupported_method_501_witness :
  status (respond example_env example_db (request_of "get" "/index.html" []))
  = Some 501
  /\ status (respond example_env example_db
               (request_of "DELETE" "/index.html" [])) = Some 501.
Proof.
  split.
  - refine (proj1 (unsupported_method_501 example_env example_db
                     (request_of "get" "/index.html" []) _ _ _ _));
      discriminate.
  - refine (proj1 (unsupported_method_501 example_env example_db
                     (request_of "DELETE" "/index.html" []) _ _ _ _));
      discriminate.
Defined.



(** X5. The two startup lines are printed before the socket is bound.
    When the port cannot be bound the constructor raises OSError outside
    the [try]: nothing is served, the shutdown notice is not printed, the
    socket is closed and the exit code is 1, whatever events follow. *)
Theorem bind_failure_is_fatal E db0 events :
  fst (main E db0 false events start) = Raise OSError
  /\ exit_code (fst (main E db0 false events start)) = Some 1
  /\ sent (snd (main E db0 false events start)) = []
  /\ socket (snd (main E db0 false events start)) = Some Closed
  /\ stdout (snd (main E db0 false events start))
     = [ "Starting server at http://localhost:8000";
         "Serving files from: " ++ getcwd E ]
  /\ forall bind_ok,
       firstn 2 (stdout (snd (main E db0 bind_ok events start)))
       = [ "Starting server at http://localhost:8000";
           "Serving files from: " ++ getcwd E ].
Proof.
  rewrite main_bind_failure. cbn [fst snd exit_code sent socket stdout].
  repeat split. intros [|]; [| rewrite main_bind_failure; reflexivity].
  rewrite main_run. destruct (forallb is_connection events); reflexivity.
Qed.

(** *** Directories and trailing slashes *)

Lemma endswith_app_nonempty a c s :
  endswith (a ++ String c s) "/" = endswith (String c s) "/".
Proof.
  induction a as [|d a IH]; [reflexivity |].
  change (String d a ++ String c s) with (String d (a ++ String c s)).
  rewrite endswith_slash_cons, IH.
  destruct a; reflexivity.
Qed.


Lemma translate_path_trailing_slash E p :
  endswith (rstrip (split1_head "#" (split1_head "?" p))) "/" = true ->
  endswith (translate_path E p) "/" = true.
Proof.
  intros H. unfold translate_path. rewrite H.
  apply (endswith_app_nonempty _ "/" "").
Qed.

Section Directories.
Variable E : Env.
Variable db : mimetypes.types_map.
Variable r : request.
Hypothesis Hget : req_command r = "GET".
Hypothesis Hversion : req_version r <> "HTTP/0.9".



End Directories.







(** X9. A final slash after the name of a file is kept by the path
    translation, and a name that ends in a slash is answered 404 without
    an attempt to open it: the file is not served under its name plus a
    slash, whether it exists or not. *)
Theorem file_with_trailing_slash_404 E db r :
  req_command r = "GET" -> req_version r <> "HTTP/0.9" ->
  endswith (rstrip (split1_head "#" (split1_head "?" (req_path r)))) "/"
  = true ->
  isdir E (translate_path E (req_path r)) = false ->
  endswith (translate_path E (req_path r)) "/" = true
  /\ respond E db r
     = error_reply E r 404 "File not found" "Nothing matches the given URI"
  /\ status (respond E db r) = Some 404.
Proof.
  intros Hc Hv Hs Hd.
  pose proof (translate_path_trailing_slash E _ Hs) as Ht.
  split; [exact Ht |].
  rewrite (respond_GET_slash E db r Hc Hv Hd Ht). split; reflexivity.
Qed.

Lemma file_with_trailing_slash_404_witness :
  status (respond example_env example_db (GET "/index.html/")) = Some 404
  /\ status (respond example_env example_db (GET "/index.html")) = Some 200.
Proof.
  assert (Hv : "HTTP/1.1" <> "HTTP/0.9") by discriminate.
  split; [| vm_compute; reflexivity].
  refine (proj2 (proj2 (file_with_trailing_slash_404 example_env example_db
                          (GET "/index.html/") eq_refl Hv _ _)));
    vm_compute; reflexivity.
Defined.

(** X10. The forced line is added to error replies too: the 404 for a
    missing file whose target ends in ".js" announces the HTML error page
    with two content types, text/html and then application/javascript. *)
Theorem missing_js_has_two_content_types E db r :
  req_command r = "GET" -> req_version r <> "HTTP/0.9" ->
  endswith (req_path r) ".js" = true ->
  isdir E (translate_path E (req_path r)) = false ->
  open_rb E (translate_path E (req_path r)) = None ->
  status (respond E db r) = Some 404
  /\ content_types (head_lines (respond E db r))
     = [ "text/html;charset=utf-8"; "application/javascript" ]
  /\ body (respond E db r)
     = error_page E 404 "File not found" "Nothing matches the given URI".
Proof.
  intros Hc Hv Hjs Hd Ho.
  rewrite (respond_GET_missing E db r Hc Hv Hd Ho). unfold error_reply.
  split; [reflexivity |]. split.
  - rewrite head_lines_reply by apply page_chunks_body.
    unfold trailer, forced. rewrite Hjs. reflexivity.
  - cbn [body]. apply body_page_chunks. rewrite Hc. reflexivity.
Qed.

Lemma missing_js_has_two_content_types_witness :
  content_types
    (head_lines (respond example_env example_db (GET "/missing.js")))
  = [ "text/html;charset=utf-8"; "application/javascript" ].
Proof.
  assert (Hv : "HTTP/1.1" <> "HTTP/0.9") by discriminate.
  refine (proj1 (proj2 (missing_js_has_two_content_types example_env
                          example_db (GET "/missing.js") eq_refl Hv _ _ _)));
    vm_compute; reflexivity.
Defined.



(** *** The translated path stays under the serving root *)

Lemma append_assoc (a b c : string) : (a ++ b) ++ c = a ++ (b ++ c).
Proof.
  induction a as [|x a IH]; [reflexivity |].
  change ((String x a ++ b) ++ c) with (String x ((a ++ b) ++ c)).
  change (String x a ++ (b ++ c)) with (String x (a ++ (b ++ c))).
  f_equal. exact IH.
Qed.

Lemma startswith_app a t : startswith (a ++ t) a = true.
Proof.
  induction a as [|x a IH]; [destruct t; reflexivity |].
  change (String x a ++ t) with (String x (a ++ t)).
  cbn [startswith]. rewrite Ascii.eqb_refl. exact IH.
Qed.

Lemma join_simple_name a w :
  contains "/" w = false -> exists t, posixpath.join a w = a ++ t.
Proof.
  intros H. unfold posixpath.join.
  assert (Hs : startswith w "/" = false).
  { destruct w as [|c w]; [reflexivity |]. cbn [contains] in H.
    apply orb_false_iff in H as [H _]. cbn [startswith]. rewrite H.
    reflexivity. }
  rewrite Hs. destruct (String.eqb a "" || endswith a "/"); eauto.
Qed.

Lemma translate_words_fold a words :
  translate_words a words
  = fold_left posixpath.join
      (List.filter (fun w => negb (contains "/" w || String.eqb w "."
                                   || String.eqb w "..")) words) a.
Proof.
  revert a. induction words as [|w words IH]; intros a; [reflexivity |].
  cbn [translate_words List.filter].
  destruct (contains "/" w || String.eqb w "." || String.eqb w "..");
    cbn [negb fold_left]; apply IH.
Qed.

(** The [filter] of the model, on a test that is a boolean. *)
Lemma filter_bool {A} (f : A -> bool) (l : list A) :
  filter (fun x => f x) l = List.filter f l.
Proof.
  induction l as [|x l IH]; [reflexivity |].
  rewrite filter_cons, IH. cbn [List.filter].
  destruct (f x); reflexivity.
Qed.

Lemma fold_join_extends ws a :
  Forall (fun w => simple_name w = true) ws ->
  exists t, fold_left posixpath.join ws a = a ++ t.
Proof.
  revert a. induction ws as [|w ws IH]; intros a Hws.
  - exists "". symmetry. apply append_empty_r.
  - inversion Hws as [|? ? Hw Hrest]; subst. cbn [fold_left].
    unfold simple_name in Hw. apply andb_true_iff in Hw as [_ Hw].
    apply negb_true_iff, orb_false_iff in Hw as [Hw _].
    apply orb_false_iff in Hw as [Hw _].
    destruct (join_simple_name a w Hw) as [t ->].
    destruct (IH (a ++ t) Hrest) as [t' ->].
    exists (t ++ t'). apply append_assoc.
Qed.

(** X12. The file name that a request target is translated to is the
    serving root extended, one [os.path.join] at a time, by names that are
    not empty, contain no slash and are neither "." nor "..", plus the
    final slash of the target if it has one; so it starts with the root
    and cannot climb out of it, whatever the target and whatever the
    percent-decoding yields. *)
Theorem translate_path_stays_under_root E p :
  exists names,
    Forall (fun w => simple_name w = true) names
    /\ translate_path E p
       = fold_left posixpath.join names (getcwd E)
         ++ (if endswith (rstrip (split1_head "#" (split1_head "?" p))) "/"
             then "/" else "")
    /\ startswith (translate_path E p) (getcwd E) = true.
Proof.
  set (words := List.filter (fun w => negb (String.eqb w ""))
                  (split "/" (posixpath.normpath
                                (unquote E (split1_head "#"
                                              (split1_head "?" p)))))).
  set (names := List.filter
                  (fun w => negb (contains "/" w || String.eqb w "."
                                  || String.eqb w "..")) words).
  assert (Hnames : Forall (fun w => simple_name w = true) names).
  { apply List.Forall_forall. intros w Hw.
    apply List.filter_In in Hw as [Hw Hk].
    apply List.filter_In in Hw as [_ Hne].
    unfold simple_name. rewrite Hne, Hk. reflexivity. }
  assert (Heq : translate_path E p
                = fold_left posixpath.join names (getcwd E)
                  ++ (if endswith (rstrip (split1_head "#"
                                             (split1_head "?" p))) "/"
                      then "/" else "")).
  { unfold translate_path.
    rewrite (filter_bool (fun w => negb (String.eqb w ""))). fold words.
    rewrite translate_words_fold. fold names.
    destruct (endswith _ "/"); [reflexivity |].
    symmetry. apply append_empty_r. }
  exists names. split; [exact Hnames |]. split; [exact Heq |].
  rewrite Heq. destruct (fold_join_extends names (getcwd E) Hnames) as [t ->].
  rewrite append_assoc. apply startswith_app.
Qed.

(** *** The registration and the other types *)

(** X13. Registering the two types twice is the same as registering them
    once, and the order of the two calls does not matter. *)
Theorem registration_is_idempotent (db0 : gmap string string) :
  register_types (register_types db0) = register_types db0
  /\ mimetypes.add_type "application/javascript" ".js"
       (mimetypes.add_type "text/css" ".css" db0)
     = register_types db0.
Proof.
  split; apply map_eq; intros ext.
  - rewrite !register_types_lookup.
    destruct (String.eqb ext ".css"); [reflexivity |].
    destruct (String.eqb ext ".js"); reflexivity.
  - rewrite register_types_lookup. unfold mimetypes.add_type.
    destruct (String.eqb_spec ext ".css") as [-> | H1].
    { rewrite lookup_insert_ne by discriminate. apply lookup_insert_eq. }
    destruct (String.eqb_spec ext ".js") as [-> | H2].
    { apply lookup_insert_eq. }
    rewrite !lookup_insert_ne by congruence. reflexivity.
Qed.

(** X14. The registration changes the guess of the MIME module only
    towards the two registered types: for every file name the guessed type
    is text/css, application/javascript, or what it was without the
    registration; the guessed encoding never changes. *)
Theorem registration_leaves_other_types (db0 : gmap string string) url :
  snd (mimetypes.guess_type (register_types db0) url)
  = snd (mimetypes.guess_type db0 url)
  /\ (fst (mimetypes.guess_type (register_types db0) url)
      = fst (mimetypes.guess_type db0 url)
      \/ fst (mimetypes.guess_type (register_types db0) url)
         = Some "text/css"
      \/ fst (mimetypes.guess_type (register_types db0) url)
         = Some "application/javascript")
  /\ (guess_type (register_types db0) url = guess_type db0 url
      \/ guess_type (register_types db0) url = "text/css"
      \/ guess_type (register_types db0) url = "application/javascript").
Proof.
  assert (H : snd (mimetypes.guess_type (register_types db0) url)
              = snd (mimetypes.guess_type db0 url)
              /\ (fst (mimetypes.guess_type (register_types db0) url)
                  = fst (mimetypes.guess_type db0 url)
                  \/ fst (mimetypes.guess_type (register_types db0) url)
                     = Some "text/css"
                  \/ fst (mimetypes.guess_type (register_types db0) url)
                     = Some "application/javascript")).
  { unfold mimetypes.guess_type.
    destruct (posixpath.splitext url) as [base ext].
    destruct (mimetypes.guess_suffix 2 base ext) as [base' ext'].
    destruct (dict_get mimetypes.encodings_map ext');
      cbn [fst snd]; (split; [reflexivity |]);
      rewrite register_types_lookup;
      destruct (String.eqb _ ".css"); auto;
      destruct (String.eqb _ ".js"); auto. }
  destruct H as [Hsnd Hfst]. split; [exact Hsnd |]. split; [exact Hfst |].
  unfold guess_type. destruct (posixpath.splitext url) as [base ext].
  destruct (dict_get extensions_map ext); [auto |].
  destruct (dict_get extensions_map (lower ext)); [auto |].
  destruct Hfst as [-> | [-> | ->]]; auto.
Qed.

Lemma dict_get_none_by_lower d ext target :
  (forall k v, In (k, v) d -> lower k <> target) ->
  lower ext = target -> dict_get d ext = None.
Proof.
  intros Hd Hext. induction d as [|[k v] d IH]; [reflexivity |].
  cbn [dict_get]. destruct (String.eqb_spec k ext) as [-> | _].
  - exfalso. apply (Hd ext v); [left; reflexivity | exact Hext].
  - apply IH. intros k' v' Hin. apply (Hd k' v'). right. exact Hin.
Qed.

(** X15. The extension is looked up without regard to letter case: a file
    whose extension is ".css" or ".js" in any mix of cases gets the
    registered type. *)
Theorem registered_type_ignores_case (db0 : gmap string string) fp base ext :
  posixpath.splitext fp = (base, ext) ->
  (lower ext = ".css" -> guess_type (register_types db0) fp = "text/css")
  /\ (lower ext = ".js" ->
      guess_type (register_types db0) fp = "application/javascript").
Proof.
  intros Hx.
  assert (H : forall target type,
            (target = ".css" /\ type = "text/css")
            \/ (target = ".js" /\ type = "application/javascript") ->
            lower ext = target ->
            guess_type (register_types db0) fp = type).
  { intros target type Ht Hl.
    assert (Hmap : forall d,
              (d = extensions_map \/ d = mimetypes.encodings_map) ->
              dict_get d ext = None).
    { intros d Hd. apply (dict_get_none_by_lower d ext target); [| exact Hl].
      intros k v Hin Hk.
      destruct Hd as [-> | ->], Ht as [[-> _] | [-> _]];
        cbn in Hin; repeat (destruct Hin as [Hin | Hin];
                            [injection Hin as <- <-; discriminate Hk |]);
        exact Hin. }
    unfold guess_type, mimetypes.guess_type. rewrite Hx.
    rewrite (Hmap extensions_map) by auto. rewrite Hl.
    replace (dict_get extensions_map target) with (@None string)
      by (destruct Ht as [[-> _] | [-> _]]; reflexivity).
    cbn [mimetypes.guess_suffix]. rewrite Hl.
    replace (dict_get mimetypes.suffix_map target) with (@None string)
      by (destruct Ht as [[-> _] | [-> _]]; reflexivity).
    rewrite (Hmap mimetypes.encodings_map) by auto. rewrite Hl.
    rewrite register_types_lookup.
    destruct Ht as [[-> ->] | [-> ->]]; reflexivity. }
  split; intros Hl; eapply H; eauto.
Qed.

Lemma registered_type_ignores_case_witness :
  guess_type example_db "/srv/Theme.CSS" = "text/css"
  /\ guess_type example_db "/srv/lib/App.Js" = "application/javascript".
Proof.
  split.
  - refine (proj1 (registered_type_ignores_case
                     {[ ".html" := "text/html" ]} "/srv/Theme.CSS"
                     "/srv/Theme" ".CSS" _) _); vm_compute; reflexivity.
  - refine (proj2 (registered_type_ignores_case
                     {[ ".html" := "text/html" ]} "/srv/lib/App.Js"
                     "/srv/lib/App" ".Js" _) _); vm_compute; reflexivity.
Defined.

(** ** The methods under another [end_headers] *)

Section EndHeaders.
Variable E : Env.
Variable db : mimetypes.types_map.
Variable eh : M unit.
Variable tr : string -> list hline.
Hypothesis Heh : forall self, live self -> eh self = (tt, finish_with tr self).

Lemma wfile_finish_with_emit ls self :
  wfile (finish_with tr (emit ls self))
  = (wfile self ++ [Head (_headers_buffer self ++ ls ++ tr (path self))])%list.
Proof. unfold finish_with, emit; cbn. rewrite <- app_assoc. reflexivity. Qed.

Lemma wfile_after_error_with code message explain self :
  wfile (after_error_with tr E code message explain self)
  = (wfile self
     ++ Head (_headers_buffer self ++ error_lines E code message explain
              ++ tr (path self))
        :: page_chunks (command self) (error_page E code message explain))%list.
Proof.
  unfold after_error_with, write_all, finish_with, emit, set_close_connection;
    cbn.
  rewrite <- !app_assoc. reflexivity.
Qed.

Lemma send_error_with code message explain self :
  live self ->
  (200 <=? code) && negb ((code =? 204) || (code =? 205) || (code =? 304))
  = true ->
  send_error E eh code (Some message) explain self
  = (tt, after_error_with tr E code message
           (default (snd (match responses code with
                          | Some r => r
                          | None => ("???", "???")
                          end)) explain) self).
Proof.
  intros Hv Hc. unfold send_error.
  destruct (match responses code with Some r => r | None => _ end)
    as [short long].
  rewrite Hc. cbn [default snd].
  set (e := default long explain).
  erewrite run_bind; cycle 1. { apply send_response_live, Hv. }
  erewrite run_bind; cycle 1. { apply send_header_close, Hv. }
  erewrite run_bind; cycle 1.
  { erewrite run_bind; cycle 1.
    { apply send_header_live; [exact Hv | reflexivity]. }
    apply send_header_live; [exact Hv | reflexivity]. }
  erewrite run_bind; cycle 1. { apply Heh, Hv. }
  erewrite run_bind; cycle 1. { reflexivity. }
  unfold after_error_with, page_chunks, error_page, when, modify, pass.
  cbn [command finish_with emit set_close_connection].
  destruct (negb (command self =? "HEAD")%string && _);
    unfold mret, M_ret; f_equal;
    unfold write_all, wfile_write, finish_with, emit, set_close_connection,
      error_lines, error_tail, error_page;
    cbn [command path request_version headers _headers_buffer wfile
         close_connection];
    rewrite <- ?app_assoc, ?app_nil_r; reflexivity.
Qed.

Lemma finish_with_emit_run ls self :
  live self -> eh (emit ls self) = (tt, finish_with tr (emit ls self)).
Proof. intros Hv. apply Heh, Hv. Qed.

Lemma send_head_file_with fp self :
  live self ->
  fst (send_head_file E db eh fp self)
  = outcome_source (classify_file E (headers self) fp)
  /\ wfile (snd (send_head_file E db eh fp self))
     = (wfile self
        ++ Head (_headers_buffer self
                 ++ outcome_lines E db (path self)
                      (classify_file E (headers self) fp)
                 ++ tr (path self))
           :: outcome_page E (command self)
                (classify_file E (headers self) fp))%list.
Proof.
  intros Hv. unfold classify_file, send_head_file.
  destruct (endswith fp "/") eqn:Hs.
  { erewrite run_bind; cycle 1.
    { apply send_error_with; [exact Hv | reflexivity]. }
    split; [reflexivity | apply wfile_after_error_with]. }
  destruct (open_rb E fp) as [f|] eqn:Ho.
  2: { erewrite run_bind; cycle 1.
       { apply send_error_with; [exact Hv | reflexivity]. }
       split; [reflexivity | apply wfile_after_error_with]. }
  erewrite run_bind; cycle 1. { reflexivity. }
  destruct (not_modified_since E (headers self) f) eqn:Hm.
  - erewrite run_bind; cycle 1.
    { eapply send_response_phrase; [exact Hv | reflexivity]. }
    erewrite run_bind; cycle 1. { apply finish_with_emit_run, Hv. }
    split; [reflexivity | apply wfile_finish_with_emit].
  - erewrite run_bind; cycle 1.
    { eapply send_response_phrase; [exact Hv | reflexivity]. }
    erewrite run_bind; cycle 1.
    { apply send_header_live; [exact Hv | reflexivity]. }
    erewrite run_bind; cycle 1.
    { apply send_header_live; [exact Hv | reflexivity]. }
    erewrite run_bind; cycle 1.
    { apply send_header_live; [exact Hv | reflexivity]. }
    rewrite !emit_emit.
    erewrite run_bind; cycle 1. { apply finish_with_emit_run, Hv. }
    split; [reflexivity | apply wfile_finish_with_emit].
Qed.

Lemma send_head_with self :
  live self ->
  fst (send_head E db eh self)
  = outcome_source (classify E (path self) (headers self))
  /\ wfile (snd (send_head E db eh self))
     = (wfile self
        ++ Head (_headers_buffer self
                 ++ outcome_lines E db (path self)
                      (classify E (path self) (headers self))
                 ++ tr (path self))
           :: outcome_page E (command self)
                (classify E (path self) (headers self)))%list.
Proof.
  intros Hv. unfold classify, send_head.
  erewrite run_bind; cycle 1. { reflexivity. }
  destruct (isdir E (translate_path E (path self))) eqn:Hd;
    [| apply send_head_file_with, Hv].
  destruct (endswith (urlsplit_path E (path self)) "/") eqn:Hs; cbn [negb].
  2: { erewrite run_bind; cycle 1.
       { eapply send_response_phrase; [exact Hv | reflexivity]. }
       erewrite run_bind; cycle 1.
       { apply send_header_live; [exact Hv | reflexivity]. }
       erewrite run_bind; cycle 1.
       { apply send_header_live; [exact Hv | reflexivity]. }
       rewrite !emit_emit.
       erewrite run_bind; cycle 1. { apply finish_with_emit_run, Hv. }
       split; [reflexivity | apply wfile_finish_with_emit]. }
  destruct (isfile E _); [apply send_head_file_with, Hv |].
  destruct (isfile E _); [apply send_head_file_with, Hv |].
  unfold list_directory.
  erewrite run_bind; cycle 1. { reflexivity. }
  destruct (listing E (translate_path E (path self)) (path self))
    as [encoded|] eqn:Hl.
  - erewrite run_bind; cycle 1.
    { eapply send_response_phrase; [exact Hv | reflexivity]. }
    erewrite run_bind; cycle 1.
    { apply send_header_live; [exact Hv | reflexivity]. }
    erewrite run_bind; cycle 1.
    { apply send_header_live; [exact Hv | reflexivity]. }
    rewrite !emit_emit.
    erewrite run_bind; cycle 1. { apply finish_with_emit_run, Hv. }
    split; [reflexivity | apply wfile_finish_with_emit].
  - erewrite run_bind; cycle 1.
    { apply send_error_with; [exact Hv | reflexivity]. }
    split; [reflexivity | apply wfile_after_error_with].
Qed.

(** The reply of a handler class that has [do_GET] and [do_HEAD] of the
    base class and no method for the command otherwise. *)
Lemma handle_with (getattr : string -> option (M unit)) r :
  req_version r <> "HTTP/0.9" ->
  (getattr "do_GET" = Some (do_GET E db eh)) ->
  (getattr "do_HEAD" = Some (do_HEAD E db eh)) ->
  (String.eqb (req_command r) "GET" = false ->
   String.eqb (req_command r) "HEAD" = false ->
   getattr ("do_" ++ req_command r) = None) ->
  wfile (snd (handle_one_request E eh getattr (new_handler r)))
  = Head (fst (reply_lines E db r) ++ tr (req_path r))
    :: snd (reply_lines E db r).
Proof.
  intros Hv Hget Hhead Hnone. unfold handle_one_request, reply_lines.
  assert (Hl : live (new_handler r)) by (apply live_new_handler, Hv).
  erewrite run_bind; cycle 1. { reflexivity. }
  cbn [command new_handler].
  destruct (String.eqb (req_command r) "GET") eqn:Hg.
  { apply String.eqb_eq in Hg. rewrite Hg.
    change ("do_" ++ "GET") with "do_GET". rewrite Hget.
    destruct (send_head_with (new_handler r) Hl) as [Hf Hw].
    unfold do_GET, mbind, M_bind.
    destruct (send_head E db eh (new_handler r)) as [f st].
    cbn [fst snd new_handler command path headers wfile _headers_buffer app]
      in Hf, Hw.
    rewrite <- Hf. rewrite Hg in Hw.
    destruct f as [source|].
    - rewrite copyfile_write. cbn [snd wfile write_all fst]. rewrite Hw.
      reflexivity.
    - cbn [snd fst]. unfold pass, mret, M_ret. cbn [snd]. rewrite Hw.
      rewrite app_nil_r. reflexivity. }
  destruct (String.eqb (req_command r) "HEAD") eqn:Hh.
  { apply String.eqb_eq in Hh. rewrite Hh.
    change ("do_" ++ "HEAD") with "do_HEAD". rewrite Hhead.
    destruct (send_head_with (new_handler r) Hl) as [_ Hw].
    unfold do_HEAD, mbind, M_bind.
    destruct (send_head E db eh (new_handler r)) as [f st].
    cbn [snd fst] in *. unfold pass, mret, M_ret. cbn [snd]. rewrite Hw.
    cbn [new_handler command path headers wfile _headers_buffer app].
    rewrite Hh. unfold outcome_page.
    destruct (classify E (req_path r) (req_headers r)); reflexivity. }
  rewrite (Hnone eq_refl eq_refl).
  rewrite send_error_with by (exact Hl || reflexivity).
  cbn [snd fst]. rewrite wfile_after_error_with. reflexivity.
Qed.

End EndHeaders.

Lemma super_end_headers_blank self :
  live self -> super_end_headers self = (tt, finish_with blank_line self).
Proof. intros Hv. rewrite super_end_headers_live by exact Hv. reflexivity. Qed.


Lemma base_getattr_command E db cmd :
  base_getattr E db ("do_" ++ cmd)
  = if String.eqb cmd "GET" then Some (do_GET E db super_end_headers)
    else if String.eqb cmd "HEAD" then Some (do_HEAD E db super_end_headers)
    else None.
Proof. reflexivity. Qed.

(** The reply of the base class, and of the class of server.py to a
    request that is not OPTIONS: the same lines and the same body, with
    the blank line in one and the trailer in the other. *)
Lemma base_respond_lines E db r :
  req_version r <> "HTTP/0.9" ->
  base_respond E db r
  = Head (fst (reply_lines E db r) ++ [Blank]) :: snd (reply_lines E db r).
Proof.
  intros Hv. unfold base_respond.
  apply (handle_with E db super_end_headers blank_line
           super_end_headers_blank (base_getattr E db) r Hv);
    [reflexivity | reflexivity |].
  intros Hg Hh. rewrite base_getattr_command, Hg, Hh. reflexivity.
Qed.

Lemma respond_lines E db r :
  req_version r <> "HTTP/0.9" -> req_command r <> "OPTIONS" ->
  respond E db r
  = Head (fst (reply_lines E db r) ++ trailer (req_path r))
    :: snd (reply_lines E db r).
Proof.
  intros Hv Ho. rewrite respond_reply by exact Hv. unfold reply, reply_lines.
  apply String.eqb_neq in Ho. rewrite Ho.
  destruct (String.eqb (req_command r) "GET"); [reflexivity |].
  destruct (String.eqb (req_command r) "HEAD"); reflexivity.
Qed.

(** ** Handlers that raise *)

Lemma wfile_send_header k v self :
  wfile (snd (send_header k v self)) = wfile self.
Proof.
  unfold send_header, mbind, M_bind, gets, when, modify, pass, mret, M_ret.
  destruct (negb (String.eqb (request_version self) "HTTP/0.9"));
    destruct (String.eqb (lower k) "connection");
    try destruct (String.eqb (lower v) "close");
    try destruct (String.eqb (lower v) "keep-alive"); reflexivity.
Qed.

Lemma wfile_send_response E code message self :
  wfile (snd (send_response E code message self)) = wfile self.
Proof.
  unfold send_response, mbind, M_bind.
  destruct (send_response_only code message self) as [[] s1] eqn:H1.
  destruct (send_header "Server" (version_string E) s1) as [[] s2] eqn:H2.
  rewrite wfile_send_header.
  change s2 with (snd (tt, s2)). rewrite <- H2, wfile_send_header.
  change s1 with (snd (tt, s1)). rewrite <- H1.
  unfold send_response_only, mbind, M_bind, gets, when, modify, pass, mret,
    M_ret.
  destruct (negb (String.eqb (request_version self) "HTTP/0.9"));
    reflexivity.
Qed.

Lemma lift_bind {A B} (m : M A) (f : A -> MX B) self :
  (lift m ≫= f) self = f (fst (m self)) (snd (m self)).
Proof. unfold mbind, MX_bind, lift. destruct (m self). reflexivity. Qed.

Lemma lift_run {A} (m : M A) self :
  lift m self = (Done (fst (m self)), snd (m self)).
Proof. unfold lift. destruct (m self). reflexivity. Qed.

Lemma done_bind {A B} (m : MX A) (f : A -> MX B) self x self' :
  m self = (Done x, self') -> (m ≫= f) self = f x self'.
Proof. intros H. unfold mbind, MX_bind. rewrite H. reflexivity. Qed.

Lemma raise_bind {A B} (m : MX A) (f : A -> MX B) self e self' :
  m self = (Raised e, self') -> (m ≫= f) self = (Raised e, self').
Proof. intros H. unfold mbind, MX_bind. rewrite H. reflexivity. Qed.

Lemma end_headers_unset_raises self :
  exists self', end_headers_unset self = (Raised AttributeError, self')
                /\ wfile self' = wfile self.
Proof.
  unfold end_headers_unset. rewrite !lift_bind.
  eexists. split; [reflexivity |]. rewrite !wfile_send_header. reflexivity.
Qed.

Lemma send_error_unset_raises E code message self :
  exists self',
    send_error_unset E code message self = (Raised AttributeError, self')
    /\ wfile self' = wfile self.
Proof.
  unfold send_error_unset. destruct (parse_responses code) as [short long].
  rewrite !lift_bind.
  set (s0 := snd (send_header "Connection" "close"
                    (snd (send_response E code
                            (Some (default short message)) self)))).
  assert (H0 : wfile s0 = wfile self)
    by (unfold s0; rewrite wfile_send_header, wfile_send_response;
        reflexivity).
  destruct ((200 <=? code)
            && negb ((code =? 204) || (code =? 205) || (code =? 304))).
  - erewrite done_bind; cycle 1.
    { rewrite lift_bind. apply lift_run. }
    match goal with
    | |- context [(end_headers_unset ≫= _) ?s] =>
        destruct (end_headers_unset_raises s) as (s' & Hs & Hw)
    end.
    exists s'. split; [apply raise_bind, Hs |].
    rewrite Hw, !wfile_send_header. exact H0.
  - erewrite done_bind; cycle 1. { reflexivity. }
    destruct (end_headers_unset_raises s0) as (s' & Hs & Hw).
    exists s'. split; [apply raise_bind, Hs |].
    rewrite Hw. exact H0.
Qed.

Lemma received_unset E code message version :
  received (send_error_unset E code message) (unparsed_handler version)
  = (Raised AttributeError, []).
Proof.
  unfold received.
  destruct (send_error_unset_raises E code message (unparsed_handler version))
    as (s' & -> & Hw).
  rewrite Hw. reflexivity.
Qed.

Section ConnHandler.
Variable E : Env.
Variable db : mimetypes.types_map.
Variable invalid_name : string -> bool.

Lemma Conn_send_head_file_valid fp self :
  endswith fp "/" = true \/ invalid_name fp = false ->
  Conn.send_head_file E db invalid_name fp self
  = lift (send_head_file E db end_headers fp) self.
Proof.
  intros Hok. unfold Conn.send_head_file, send_head_file, Conn.open.
  destruct (endswith fp "/") eqn:Hs.
  { unfold lift, mbind, MX_bind, M_bind, mret, MX_ret, M_ret.
    destruct (send_error E end_headers 404 _ None self). reflexivity. }
  destruct Hok as [Hok | Hok]; [discriminate Hok |]. rewrite Hok.
  unfold lift, mbind, MX_bind, M_bind, mret, MX_ret, M_ret, gets.
  destruct (open_rb E fp) as [f|].
  2: { destruct (send_error E end_headers 404 _ None self). reflexivity. }
  destruct (not_modified_since E (headers self) f).
  - destruct (send_response E 304 None self) as [[] s1].
    destruct (end_headers s1). reflexivity.
  - destruct (send_response E 200 None self) as [[] s1].
    destruct (send_header "Content-type" _ s1) as [[] s2].
    destruct (send_header "Content-Length" _ s2) as [[] s3].
    destruct (send_header "Last-Modified" _ s3) as [[] s4].
    destruct (end_headers s4). reflexivity.
Qed.

Lemma Conn_send_head_file_invalid fp self :
  endswith fp "/" = false -> invalid_name fp = true ->
  Conn.send_head_file E db invalid_name fp self = (Raised ValueError, self).
Proof.
  intros Hs Hi. unfold Conn.send_head_file, Conn.open. rewrite Hs, Hi.
  reflexivity.
Qed.

Lemma Conn_send_head_file_opened fp self :
  Conn.send_head_file E db invalid_name fp self
  = if match opened_file fp with
       | Some name => invalid_name name
       | None => false
       end
    then (Raised ValueError, self)
    else lift (send_head_file E db end_headers fp) self.
Proof.
  unfold opened_file. destruct (endswith fp "/") eqn:Hs.
  { apply Conn_send_head_file_valid. left. exact Hs. }
  destruct (invalid_name fp) eqn:Hi.
  - apply Conn_send_head_file_invalid; assumption.
  - apply Conn_send_head_file_valid. right. exact Hi.
Qed.

Lemma Conn_send_head_opened self :
  Conn.send_head E db invalid_name self
  = if match opened E (path self) with
       | Some name => invalid_name name
       | None => false
       end
    then (Raised ValueError, self)
    else lift (send_head E db end_headers) self.
Proof.
  unfold Conn.send_head, opened. rewrite lift_bind. cbn [gets fst snd].
  destruct (isdir E (translate_path E (path self))) eqn:Hd.
  2: { rewrite Conn_send_head_file_opened.
       destruct (match opened_file _ with Some _ => _ | None => _ end);
         [reflexivity |].
       unfold lift, send_head, mbind, M_bind, gets. rewrite Hd.
       reflexivity. }
  destruct (endswith (urlsplit_path E (path self)) "/") eqn:Hs; cbn [negb].
  2: { unfold lift, send_head, mbind, MX_bind, M_bind, gets, mret, MX_ret,
         M_ret.
       rewrite Hd, Hs. cbn [negb].
       destruct (send_response E 301 None self) as [[] s1].
       destruct (send_header "Location" _ s1) as [[] s2].
       destruct (send_header "Content-Length" _ s2) as [[] s3].
       destruct (end_headers s3). reflexivity. }
  destruct (isfile E (posixpath.join (translate_path E (path self))
                        "index.html")) eqn:H1.
  { rewrite Conn_send_head_file_opened.
    destruct (match opened_file _ with Some _ => _ | None => _ end);
      [reflexivity |].
    unfold lift, send_head, mbind, M_bind, gets. rewrite Hd, Hs, H1.
    reflexivity. }
  destruct (isfile E (posixpath.join (translate_path E (path self))
                        "index.htm")) eqn:H2.
  { rewrite Conn_send_head_file_opened.
    destruct (match opened_file _ with Some _ => _ | None => _ end);
      [reflexivity |].
    unfold lift, send_head, mbind, M_bind, gets. rewrite Hd, Hs, H1, H2.
    reflexivity. }
  unfold lift, send_head, mbind, M_bind, gets. rewrite Hd, Hs, H1, H2.
  reflexivity.
Qed.

Lemma Conn_getattr_command cmd :
  Conn.getattr E db invalid_name ("do_" ++ cmd)
  = if String.eqb cmd "OPTIONS" then Some (lift (do_OPTIONS E))
    else if String.eqb cmd "GET" then Some (Conn.do_GET E db invalid_name)
    else if String.eqb cmd "HEAD" then Some (Conn.do_HEAD E db invalid_name)
    else None.
Proof. reflexivity. Qed.

Lemma respond_method r :
  respond E db r
  = wfile (snd (match getattr E db ("do_" ++ req_command r) with
                | None =>
                    send_error E end_headers 501
                      (Some ("Unsupported method ("
                             ++ repr E (req_command r) ++ ")")) None
                | Some method => method
                end (new_handler r))).
Proof. reflexivity. Qed.

(** The class of server.py on an accepted request: [open] raises, or the
    reply is the one of the methods that do not raise. *)
Lemma Conn_dispatch r :
  received (Conn.dispatch E db invalid_name) (new_handler r)
  = if open_raises E invalid_name r then (Raised ValueError, [])
    else (Done tt, respond E db r).
Proof.
  unfold received, Conn.dispatch, open_raises. rewrite lift_bind.
  cbn [gets fst snd command new_handler].
  rewrite respond_method, Conn_getattr_command, getattr_command.
  destruct (String.eqb (req_command r) "OPTIONS") eqn:Ho.
  { apply String.eqb_eq in Ho. rewrite Ho. cbn [String.eqb Ascii.eqb
      Bool.eqb orb andb]. rewrite lift_run. destruct (do_OPTIONS E _) as [[] s].
    reflexivity. }
  destruct (String.eqb (req_command r) "GET") eqn:Hg; cbn [orb andb].
  { unfold Conn.do_GET, mbind, MX_bind. rewrite Conn_send_head_opened.
    cbn [path new_handler].
    destruct (match opened E (req_path r) with Some _ => _ | None => _ end);
      [reflexivity |].
    rewrite lift_run. unfold do_GET, mbind, M_bind.
    destruct (send_head E db end_headers (new_handler r)) as [[source|] s];
      cbn [fst snd]; [| reflexivity].
    rewrite lift_run. destruct (copyfile source s) as [[] s']. reflexivity. }
  destruct (String.eqb (req_command r) "HEAD") eqn:Hh; cbn [orb andb].
  { unfold Conn.do_HEAD, mbind, MX_bind. rewrite Conn_send_head_opened.
    cbn [path new_handler].
    destruct (match opened E (req_path r) with Some _ => _ | None => _ end);
      [reflexivity |].
    rewrite lift_run. unfold do_HEAD, mbind, M_bind.
    destruct (send_head E db end_headers (new_handler r)) as [f s].
    reflexivity. }
  rewrite lift_run. destruct (send_error E end_headers 501 _ None _) as [[] s].
  reflexivity.
Qed.

End ConnHandler.


Section ConnRun.
Variable E : Env.
Variable db0 : mimetypes.types_map.
Variable int : string -> option Z.
Variable parsestr : string -> list (string * string).
Variable invalid_name : string -> bool.

(** What [handle_one_request] does, by the verdict of [parse_request]. *)
Lemma Conn_handle db c :
  Conn.handle_one_request E db int parsestr invalid_name c
  = if _MAXLINE <? len (raw_requestline c) then (Raised AttributeError, [])
    else if String.eqb (raw_requestline c) "" then (Done tt, [])
    else match parse_request E int parsestr c with
         | Ignored => (Done tt, [])
         | Rejected _ _ _ => (Raised AttributeError, [])
         | HeadersRejected r message explain =>
             received (lift (send_error E end_headers 431 (Some message)
                               (Some explain)))
               (new_handler r)
         | Accepted r =>
             if open_raises E invalid_name r then (Raised ValueError, [])
             else (Done tt, respond E db r)
         end.
Proof.
  unfold Conn.handle_one_request.
  destruct (_MAXLINE <? len (raw_requestline c)); [apply received_unset |].
  destruct (String.eqb (raw_requestline c) ""); [reflexivity |].
  destruct (parse_request E int parsestr c) as [r | | v code m | r m e];
    [apply Conn_dispatch | reflexivity | apply received_unset | reflexivity].
Qed.

Lemma Conn_serve_forever_run db arrivals st :
  Conn.serve_forever E int parsestr invalid_name db arrivals st
  = (if forallb is_connects arrivals then Waiting
     else Raise KeyboardInterrupt,
     {| Conn.this :=
          {| stdout := stdout (Conn.this st); socket := socket (Conn.this st);
             sent := sent (Conn.this st)
                     ++ map (fun c =>
                               snd (Conn.handle_one_request E db int parsestr
                                      invalid_name c))
                          (connections arrivals) |};
        Conn.tracebacks :=
          Conn.tracebacks st
          ++ flat_map (fun c =>
                         traceback
                           (fst (Conn.handle_one_request E db int parsestr
                                   invalid_name c)))
               (connections arrivals) |}).
Proof.
  revert st. induction arrivals as [|[c|] rest IH]; intros st.
  - cbn. rewrite !app_nil_r. destruct st as [[] ?]; reflexivity.
  - cbn [Conn.serve_forever forallb is_connects connections map flat_map
         andb].
    unfold mbind at 1, Conn.PX_bind at 1.
    unfold Conn._handle_request_noblock, Conn.process_request.
    destruct (Conn.handle_one_request E db int parsestr invalid_name c)
      as [[[]|e] w];
      unfold mbind, Conn.PX_bind, Conn.client_receives, mret, Conn.PX_ret,
        Conn.handle_error;
      cbn [fst snd traceback app]; rewrite IH;
      cbn [Conn.this Conn.tracebacks stdout socket sent];
      rewrite <- ?app_assoc, ?app_nil_r; reflexivity.
  - cbn. rewrite !app_nil_r. destruct st as [[] ?]; reflexivity.
Qed.

Lemma Conn_main_run arrivals :
  Conn.main E db0 int parsestr invalid_name true arrivals Conn.start
  = (if forallb is_connects arrivals then Waiting else Return tt,
     {| Conn.this :=
          {| stdout :=
               [ "Starting server at http://localhost:8000";
                 "Serving files from: " ++ getcwd E ]
               ++ (if forallb is_connects arrivals then []
                   else [nl ++ "Server stopped."]);
             socket := Some (if forallb is_connects arrivals then Listening
                             else Closed);
             sent := map (fun c =>
                            snd (Conn.handle_one_request E
                                   (register_types db0) int parsestr
                                   invalid_name c))
                       (connections arrivals) |};
        Conn.tracebacks :=
          flat_map (fun c =>
                      traceback
                        (fst (Conn.handle_one_request E (register_types db0)
                                int parsestr invalid_name c)))
            (connections arrivals) |}).
Proof.
  unfold Conn.main, Conn.with_server, Conn.try_except, mbind, Conn.PX_bind,
    Conn.lift_P, print, TCPServer, server_close, Conn.start, start.
  cbn [Conn.this Conn.tracebacks stdout socket sent app].
  rewrite Conn_serve_forever_run.
  destruct (forallb is_connects arrivals); reflexivity.
Qed.

End ConnRun.

(** ** The forced content type is added, not substituted *)

Lemma content_types_app a b :
  content_types (a ++ b) = (content_types a ++ content_types b)%list.
Proof.
  induction a as [|[v code m|k v|] a IH]; cbn [content_types app];
    [reflexivity | exact IH | | exact IH].
  destruct (String.eqb (lower k) "content-type"); cbn [app]; congruence.
Qed.

Lemma reply_lines_bodies E db r :
  forallb is_body (snd (reply_lines E db r)) = true.
Proof.
  unfold reply_lines.
  destruct (String.eqb (req_command r) "GET"); cbn [snd].
  { rewrite forallb_app, outcome_page_body, source_chunks_body.
    reflexivity. }
  destruct (String.eqb (req_command r) "HEAD"); cbn [snd];
    [reflexivity | apply page_chunks_body].
Qed.

(** C2, as the code has it.  For a target that ends in ".js" the line
    [Content-Type: application/javascript] is the last line of the head of
    every response, after the CORS headers.  The line is added, not
    substituted: but for OPTIONS, which the base class does not answer,
    the response is the response of the base class with
    the CORS headers and the forced line put in front of the blank line,
    so every content-type line of the base class stays, in front of the
    forced one, and the body is the same.  For an existing file answered
    200 the two content types are the guessed one and the forced one; for
    a file with the extension ".js" both are application/javascript. *)
Theorem js_content_type_appended E db r :
  req_version r <> "HTTP/0.9" -> endswith (req_path r) ".js" = true ->
  (exists code message hs bs,
     respond E db r
     = Head (response_lines E code message ++ hs ++ cors_headers
             ++ [ Header "Content-Type" "application/javascript"; Blank ])
       :: bs
     /\ forallb base_line hs = true /\ forallb is_body bs = true)
  /\ (req_command r <> "OPTIONS" ->
      exists ls bs,
        base_respond E db r = Head (ls ++ [Blank]) :: bs
        /\ respond E db r
           = Head (ls ++ cors_headers
                   ++ [ Header "Content-Type" "application/javascript";
                        Blank ])
             :: bs
        /\ forallb is_body bs = true
        /\ content_types (head_lines (respond E db r))
           = (content_types (head_lines (base_respond E db r))
              ++ [ "application/javascript" ])%list)
  /\ (req_command r = "OPTIONS" ->
      respond E db r
      = [ Head (response_lines E 200 "OK" ++ cors_headers
                ++ [ Header "Content-Type" "application/javascript";
                     Blank ]) ])
  /\ (forall f,
        req_command r = "GET" ->
        isdir E (translate_path E (req_path r)) = false ->
        open_rb E (translate_path E (req_path r)) = Some f ->
        status (respond E db r) = Some 200 ->
        content_types (head_lines (base_respond E db r))
        = [ guess_type db (translate_path E (req_path r)) ]
        /\ content_types (head_lines (respond E db r))
           = [ guess_type db (translate_path E (req_path r));
               "application/javascript" ]
        /\ forall db0 base,
             db = register_types db0 ->
             posixpath.splitext (translate_path E (req_path r))
             = (base, ".js") ->
             content_types (head_lines (respond E db r))
             = [ "application/javascript"; "application/javascript" ]).
Proof.
  intros Hv Hjs.
  assert (Htr : trailer (req_path r)
                = (cors_headers
                   ++ [ Header "Content-Type" "application/javascript";
                        Blank ])%list)
    by (unfold trailer, forced; rewrite Hjs; reflexivity).
  assert (Hadded : req_command r <> "OPTIONS" ->
    content_types (head_lines (respond E db r))
    = (content_types (head_lines (base_respond E db r))
       ++ [ "application/javascript" ])%list).
  { intros Ho.
    rewrite (respond_lines E db r Hv Ho), (base_respond_lines E db r Hv).
    rewrite !(head_lines_reply _ _ (reply_lines_bodies E db r)).
    rewrite Htr, !content_types_app. cbn. rewrite app_nil_r. reflexivity. }
  split; [| split; [| split]].
  - destruct (respond_shaped E db r Hv) as (code & message & hs & bs & H & Hr).
    exists code, message, hs, bs. split; [| exact Hr].
    rewrite H, Htr. reflexivity.
  - intros Ho.
    exists (fst (reply_lines E db r)), (snd (reply_lines E db r)).
    split; [apply base_respond_lines, Hv |].
    split; [rewrite <- Htr; apply respond_lines; assumption |].
    split; [apply reply_lines_bodies | apply Hadded, Ho].
  - intros Ho. rewrite respond_OPTIONS by assumption. rewrite Htr.
    reflexivity.
  - intros f Hc Hd Hf H200.
    assert (Ho : req_command r <> "OPTIONS") by (rewrite Hc; discriminate).
    destruct (endswith (translate_path E (req_path r)) "/") eqn:Hs.
    { rewrite respond_GET_slash in H200 by assumption. discriminate H200. }
    destruct (not_modified_since E (req_headers r) f) eqn:Hm.
    { rewrite (respond_GET_not_modified E db r Hc Hv f) in H200
        by assumption.
      discriminate H200. }
    clear H200.
    assert (Hbase : content_types (head_lines (base_respond E db r))
                    = [ guess_type db (translate_path E (req_path r)) ]).
    { rewrite (base_respond_lines E db r Hv).
      rewrite (head_lines_reply _ _ (reply_lines_bodies E db r)).
      unfold reply_lines, classify, classify_file.
      rewrite Hc, Hd, Hs, Hf, Hm. reflexivity. }
    assert (Hboth : content_types (head_lines (respond E db r))
                    = [ guess_type db (translate_path E (req_path r));
                        "application/javascript" ])
      by (rewrite (Hadded Ho), Hbase; reflexivity).
    split; [exact Hbase |]. split; [exact Hboth |].
    intros db0 base -> Hx. rewrite Hboth, (guess_type_js db0 _ base Hx).
    reflexivity.
Qed.

Lemma js_content_type_appended_witness :
  content_types
    (head_lines (base_respond example_env example_db (GET "/index.html?.js")))
  = [ "text/html" ]
  /\ content_types
       (head_lines (respond example_env example_db (GET "/index.html?.js")))
     = [ "text/html"; "application/javascript" ]
  /\ content_types
       (head_lines (respond example_env example_db (GET "/app.js")))
     = [ "application/javascript"; "application/javascript" ].
Proof.
  assert (Hv : "HTTP/1.1" <> "HTTP/0.9") by discriminate.
  destruct (js_content_type_appended example_env example_db
              (GET "/index.html?.js") Hv eq_refl) as (_ & _ & _ & Hfile).
  destruct (Hfile {| f_content := "<html></html>"; st_size := 13;
                     st_mtime := 1767225600 |}
              eq_refl eq_refl eq_refl eq_refl) as (Hbase & Hboth & _).
  destruct (js_content_type_appended example_env example_db
              (GET "/app.js") Hv eq_refl) as (_ & _ & _ & Hjs).
  destruct (Hjs {| f_content := "export {};"; st_size := 10;
                   st_mtime := 1767225600 |}
              eq_refl eq_refl eq_refl eq_refl) as (_ & _ & Hreg).
  split; [exact Hbase |]. split; [exact Hboth |].
  exact (Hreg {[ ".html" := "text/html" ]} "/srv/app" eq_refl eq_refl).
Defined.

(** ** Connections *)

Lemma parse_request_blank E int parsestr c :
  raw_requestline c = "" -> parse_request E int parsestr c = Ignored.
Proof. intros H. unfold parse_request. rewrite H. reflexivity. Qed.



(** A connection whose request is accepted and whose handler does not
    raise gets the response to the request. *)
Lemma Conn_handle_accepted E db int parsestr invalid_name c r :
  (_MAXLINE <? len (raw_requestline c)) = false ->
  parse_request E int parsestr c = Accepted r ->
  open_raises E invalid_name r = false ->
  Conn.handle_one_request E db int parsestr invalid_name c
  = (Done tt, respond E db r).
Proof.
  intros Hlen Hp Hr. rewrite Conn_handle, Hlen.
  destruct (String.eqb_spec (raw_requestline c) "") as [Hb | _].
  { rewrite (parse_request_blank E int parsestr c Hb) in Hp.
    discriminate Hp. }
  rewrite Hp, Hr. reflexivity.
Qed.

Lemma open_raises_regular E invalid_name r :
  isdir E (translate_path E (req_path r)) = false ->
  invalid_name (translate_path E (req_path r)) = false ->
  open_raises E invalid_name r = false.
Proof.
  intros Hd Hi. unfold open_raises, opened, opened_file. rewrite Hd.
  destruct (endswith _ "/"); [apply andb_false_r |].
  rewrite Hi. apply andb_false_r.
Qed.

(** C5, as the code has it.  A GET request for a path that names no file
    (not a directory, and [open] fails with OSError) is answered with
    status 404 when the operating system accepts the translated name; the
    handler then returns normally, no traceback is printed, and the serve
    loop goes on with the connections that follow as if the script had
    started with them. *)
Theorem missing_file_404 E db0 int parsestr invalid_name c r rest :
  (_MAXLINE <? len (raw_requestline c)) = false ->
  parse_request E int parsestr c = Accepted r ->
  req_command r = "GET" -> req_version r <> "HTTP/0.9" ->
  isdir E (translate_path E (req_path r)) = false ->
  invalid_name (translate_path E (req_path r)) = false ->
  open_rb E (translate_path E (req_path r)) = None ->
  Conn.handle_one_request E (register_types db0) int parsestr invalid_name c
  = (Done tt, respond E (register_types db0) r)
  /\ status (respond E (register_types db0) r) = Some 404
  /\ fst (Conn.main E db0 int parsestr invalid_name true
            (Conn.Connects c :: rest) Conn.start)
     = fst (Conn.main E db0 int parsestr invalid_name true rest Conn.start)
  /\ sent (Conn.this (snd (Conn.main E db0 int parsestr invalid_name true
                             (Conn.Connects c :: rest) Conn.start)))
     = respond E (register_types db0) r
       :: sent (Conn.this (snd (Conn.main E db0 int parsestr invalid_name
                                  true rest Conn.start)))
  /\ Conn.tracebacks (snd (Conn.main E db0 int parsestr invalid_name true
                             (Conn.Connects c :: rest) Conn.start))
     = Conn.tracebacks (snd (Conn.main E db0 int parsestr invalid_name true
                               rest Conn.start))
  /\ socket (Conn.this (snd (Conn.main E db0 int parsestr invalid_name true
                               (Conn.Connects c :: rest) Conn.start)))
     = socket (Conn.this (snd (Conn.main E db0 int parsestr invalid_name
                                 true rest Conn.start))).
Proof.
  intros Hlen Hp Hc Hv Hd Hi Ho.
  assert (Hh : Conn.handle_one_request E (register_types db0) int parsestr
                 invalid_name c
               = (Done tt, respond E (register_types db0) r)).
  { apply Conn_handle_accepted; [exact Hlen | exact Hp |].
    apply open_raises_regular; assumption. }
  split; [exact Hh |]. split.
  { rewrite respond_GET_missing by assumption. reflexivity. }
  rewrite !Conn_main_run.
  cbn [forallb is_connects connections map flat_map andb fst snd Conn.this
       Conn.tracebacks sent socket].
  rewrite Hh. cbn [fst snd traceback app]. auto.
Qed.

Lemma missing_file_404_witness :
  map status
    (sent (Conn.this
             (snd (Conn.main example_env {[ ".html" := "text/html" ]}
                     example_int example_parsestr has_nul true
                     [ Conn.Connects
                         (connection_of "GET /missing.txt HTTP/1.1");
                       Conn.Connects
                         (connection_of "GET /index.html HTTP/1.1") ]
                     Conn.start))))
  = [Some 404; Some 200].
Proof.
  assert (Hv : "HTTP/1.1" <> "HTTP/0.9") by discriminate.
  destruct (missing_file_404 example_env {[ ".html" := "text/html" ]}
              example_int example_parsestr has_nul
              (connection_of "GET /missing.txt HTTP/1.1")
              (GET "/missing.txt")
              [Conn.Connects (connection_of "GET /index.html HTTP/1.1")]
              eq_refl eq_refl eq_refl Hv eq_refl eq_refl eq_refl)
    as (_ & _ & _ & Hsent & _).
  rewrite Hsent. vm_compute. reflexivity.
Defined.

(** The claim C5 as the spec words it fails for a name with a NUL byte:
    no file corresponds to the path, [open] raises ValueError, which
    [send_head] does not catch, and the client gets no response at
    all. *)
Lemma nul_in_target_gets_no_reply :
  ~ (forall E db int parsestr invalid_name c r,
       (_MAXLINE <? len (raw_requestline c)) = false ->
       parse_request E int parsestr c = Accepted r ->
       req_command r = "GET" -> req_version r <> "HTTP/0.9" ->
       isdir E (translate_path E (req_path r)) = false ->
       open_rb E (translate_path E (req_path r)) = None ->
       status (snd (Conn.handle_one_request E db int parsestr invalid_name c))
       = Some 404)
  /\ Conn.handle_one_request example_env example_db example_int
       example_parsestr has_nul
       (connection_of ("GET /a" ++ String "000" "b HTTP/1.1"))
     = (Raised ValueError, []).
Proof.
  split; [| vm_compute; reflexivity].
  intros H.
  assert (Hv : "HTTP/1.1" <> "HTTP/0.9") by discriminate.
  specialize (H example_env example_db example_int example_parsestr has_nul
                (connection_of ("GET /a" ++ String "000" "b HTTP/1.1"))
                (GET ("/a" ++ String "000" "b"))
                eq_refl eq_refl eq_refl Hv eq_refl eq_refl).
  vm_compute in H. discriminate H.
Qed.





(** *** The serve loop *)

Lemma connections_all arrivals :
  forallb is_connects arrivals = true ->
  length (connections arrivals) = length arrivals.
Proof.
  induction arrivals as [|[c|] rest IH]; cbn; [reflexivity | | discriminate].
  intros H. f_equal. apply IH, H.
Qed.

Lemma connections_before_interrupt pre post :
  forallb is_connects pre = true ->
  connections (pre ++ Conn.Interrupt :: post) = connections pre
  /\ forallb is_connects (pre ++ Conn.Interrupt :: post) = false.
Proof.
  induction pre as [|[c|] pre IH]; cbn; [auto | | discriminate].
  intros H. destruct (IH H) as [-> ->]. auto.
Qed.

(** X4. As long as no interrupt arrives the script does not end, whatever
    the handlers do: each connection is handled by a handler object of its
    own and its client receives what that handler wrote, which is nothing
    when the handler raised before it sent the head; the exception is
    caught by the serve loop, which prints the traceback and goes on.  The
    socket stays open and no shutdown notice is printed. *)
Theorem serve_loop_outlives_handlers E db0 int parsestr invalid_name
    arrivals :
  forallb is_connects arrivals = true ->
  fst (Conn.main E db0 int parsestr invalid_name true arrivals Conn.start)
  = Waiting
  /\ exit_code (fst (Conn.main E db0 int parsestr invalid_name true arrivals
                       Conn.start)) = None
  /\ socket (Conn.this (snd (Conn.main E db0 int parsestr invalid_name true
                               arrivals Conn.start)))
     = Some Listening
  /\ sent (Conn.this (snd (Conn.main E db0 int parsestr invalid_name true
                             arrivals Conn.start)))
     = map (fun c => snd (Conn.handle_one_request E (register_types db0) int
                            parsestr invalid_name c))
         (connections arrivals)
  /\ Conn.tracebacks (snd (Conn.main E db0 int parsestr invalid_name true
                             arrivals Conn.start))
     = flat_map (fun c =>
                   traceback
                     (fst (Conn.handle_one_request E (register_types db0) int
                             parsestr invalid_name c)))
         (connections arrivals)
  /\ length (connections arrivals) = length arrivals
  /\ stdout (Conn.this (snd (Conn.main E db0 int parsestr invalid_name true
                               arrivals Conn.start)))
     = [ "Starting server at http://localhost:8000";
         "Serving files from: " ++ getcwd E ].
Proof.
  intros H. rewrite Conn_main_run, H.
  cbn [fst snd exit_code socket sent stdout Conn.this Conn.tracebacks app].
  rewrite connections_all by exact H. auto 8.
Qed.

Lemma serve_loop_outlives_handlers_witness :
  map status
    (sent (Conn.this
             (snd (Conn.main example_env {[ ".html" := "text/html" ]}
                     example_int example_parsestr has_nul true
                     [ Conn.Connects (connection_of "BAD");
                       Conn.Connects
                         (connection_of
                            ("GET /a" ++ String "000" "b HTTP/1.1"));
                       Conn.Connects
                         (connection_of "GET /index.html HTTP/1.1") ]
                     Conn.start))))
  = [None; None; Some 200]
  /\ Conn.tracebacks
       (snd (Conn.main example_env {[ ".html" := "text/html" ]}
               example_int example_parsestr has_nul true
               [ Conn.Connects (connection_of "BAD");
                 Conn.Connects
                   (connection_of ("GET /a" ++ String "000" "b HTTP/1.1"));
                 Conn.Connects (connection_of "GET /index.html HTTP/1.1") ]
               Conn.start))
     = [AttributeError; ValueError].
Proof.
  destruct (serve_loop_outlives_handlers example_env
              {[ ".html" := "text/html" ]} example_int example_parsestr
              has_nul
              [ Conn.Connects (connection_of "BAD");
                Conn.Connects
                  (connection_of ("GET /a" ++ String "000" "b HTTP/1.1"));
                Conn.Connects (connection_of "GET /index.html HTTP/1.1") ]
              eq_refl)
    as (_ & _ & _ & Hsent & Htb & _).
  rewrite Hsent, Htb. split; vm_compute; reflexivity.
Defined.

(** X17. The interrupt ends the script in the same way after handlers
    that raised: the connections before it have been handled, those after
    it are not, the shutdown notice is the last line printed, the socket
    is closed and the exit code is 0; the tracebacks of the handlers that
    raised are all that went wrong. *)
Theorem interrupt_after_handler_errors E db0 int parsestr invalid_name
    pre post :
  forallb is_connects pre = true ->
  exit_code (fst (Conn.main E db0 int parsestr invalid_name true
                    (pre ++ Conn.Interrupt :: post) Conn.start)) = Some 0
  /\ stdout (Conn.this (snd (Conn.main E db0 int parsestr invalid_name true
                               (pre ++ Conn.Interrupt :: post) Conn.start)))
     = [ "Starting server at http://localhost:8000";
         "Serving files from: " ++ getcwd E;
         nl ++ "Server stopped." ]
  /\ socket (Conn.this (snd (Conn.main E db0 int parsestr invalid_name true
                               (pre ++ Conn.Interrupt :: post) Conn.start)))
     = Some Closed
  /\ sent (Conn.this (snd (Conn.main E db0 int parsestr invalid_name true
                             (pre ++ Conn.Interrupt :: post) Conn.start)))
     = map (fun c => snd (Conn.handle_one_request E (register_types db0) int
                            parsestr invalid_name c))
         (connections pre)
  /\ Conn.tracebacks (snd (Conn.main E db0 int parsestr invalid_name true
                             (pre ++ Conn.Interrupt :: post) Conn.start))
     = flat_map (fun c =>
                   traceback
                     (fst (Conn.handle_one_request E (register_types db0) int
                             parsestr invalid_name c)))
         (connections pre).
Proof.
  intros Hpre. rewrite Conn_main_run.
  destruct (connections_before_interrupt pre post Hpre) as [-> ->].
  cbn. auto.
Qed.

Lemma interrupt_after_handler_errors_witness :
  exit_code
    (fst (Conn.main example_env {[ ".html" := "text/html" ]} example_int
            example_parsestr has_nul true
            [ Conn.Connects (connection_of "BAD"); Conn.Interrupt;
              Conn.Connects (connection_of "GET /index.html HTTP/1.1") ]
            Conn.start))
  = Some 0
  /\ Conn.tracebacks
       (snd (Conn.main example_env {[ ".html" := "text/html" ]} example_int
               example_parsestr has_nul true
               [ Conn.Connects (connection_of "BAD"); Conn.Interrupt;
                 Conn.Connects (connection_of "GET /index.html HTTP/1.1") ]
               Conn.start))
     = [AttributeError].
Proof.
  destruct (interrupt_after_handler_errors example_env
              {[ ".html" := "text/html" ]} example_int example_parsestr
              has_nul [Conn.Connects (connection_of "BAD")]
              [Conn.Connects (connection_of "GET /index.html HTTP/1.1")]
              eq_refl) as (Hexit & _ & _ & _ & Htb).
  split; [exact Hexit |]. cbn [app] in Htb. rewrite Htb.
  vm_compute. reflexivity.
Defined.

(** *** The two runs of the script *)



(** *** The limits on the header lines *)








